(** * Monopile dashboard: data linking, search and map synchronisation

    A shallow embedding of the data utilities ([dataUtils]), the map
    utilities ([mapUtils]) and the page handlers ([Index]) of the monopile
    mapping dashboard, together with the properties of record linking,
    manual placement, search filtering, file parsing and map filtering.

    JavaScript objects used as rows are finite maps from property names to
    values; arrays are lists; the map widget is an explicit state that the
    map utilities transform; promises are their eventual outcome. *)

From Stdlib Require Import Ascii String Floats.
From stdpp Require Import gmap strings list fin_maps.

Local Open Scope string_scope.

(** ** JavaScript values *)

(** The scalar values a table cell, a GeoJSON property or a coordinate
    component can hold.  Numbers are IEEE 754 binary64, as in the language. *)
Inductive JSValue : Type :=
  | JUndefined
  | JNull
  | JBool (b : bool)
  | JNum (n : float)
  | JStr (s : string).

(** [ToBoolean]: [undefined], [null], [false], [+0], [-0], [NaN] and the empty
    string are falsy, every other value is truthy. *)
Definition truthy (v : JSValue) : bool :=
  match v with
  | JUndefined | JNull => false
  | JBool b => b
  | JNum n => negb (PrimFloat.is_zero n || PrimFloat.is_nan n)
  | JStr s => negb (bool_decide (s = ""))
  end.

(** [a === b]: no coercion; numbers compare as IEEE values. *)
Definition strict_eq (a b : JSValue) : bool :=
  match a, b with
  | JUndefined, JUndefined => true
  | JNull, JNull => true
  | JBool x, JBool y => Bool.eqb x y
  | JNum x, JNum y => PrimFloat.eqb x y
  | JStr x, JStr y => bool_decide (x = y)
  | _, _ => false
  end.

(** An object reference used as a condition: truthy unless absent. *)
Definition present {A : Type} (o : option A) : bool :=
  match o with
  | Some _ => true
  | None => false
  end.

(** [a || b] *)
Definition js_or (a b : JSValue) : JSValue := if truthy a then a else b.

(** [a ?? b] *)
Definition js_nullish (a b : JSValue) : JSValue :=
  match a with
  | JUndefined | JNull => b
  | _ => a
  end.

(** ** Strings *)

Definition lower_ascii (c : ascii) : ascii :=
  let n := nat_of_ascii c in
  if (65 <=? n)%nat && (n <=? 90)%nat then ascii_of_nat (n + 32) else c.

(** [s.toLowerCase()] on the ASCII letters; other code units are kept. *)
Fixpoint toLowerCase (s : string) : string :=
  match s with
  | EmptyString => EmptyString
  | String c r => String (lower_ascii c) (toLowerCase r)
  end.

(** [s.includes(q)]: [q] occurs in [s] as a contiguous substring. *)
Fixpoint includes (s q : string) : bool :=
  String.prefix q s ||
  match s with
  | EmptyString => false
  | String _ r => includes r q
  end.

(** [s.split(sep)] for a one-character separator. *)
Fixpoint split (sep : ascii) (s : string) : list string :=
  match s with
  | EmptyString => [EmptyString]
  | String c r =>
      if Ascii.eqb c sep then EmptyString :: split sep r
      else match split sep r with
           | h :: t => String c h :: t
           | [] => [String c EmptyString]
           end
  end.

(** ** Rows *)

(** [Monopile]: an object with arbitrary columns and optional [lat], [lng]. *)
Abbreviation Monopile := (gmap string JSValue).

(** [o[k]]: the value of an own property, [undefined] when it is absent. *)
Definition prop (o : Monopile) (k : string) : JSValue :=
  default JUndefined (o !! k).

(** The own enumerable keys of an object ([Object.keys], [for ... in]).  The
    engine's enumeration order is not part of the finite-map view of an
    object; only the keys themselves are. *)
Definition Object_keys (o : Monopile) : list string := (map_to_list o).*1.

Record ColumnOption : Type := {
  value : string;
  label : string
}.

Record TableData : Type := {
  columns : list ColumnOption;
  rows : list Monopile;
  idColumnKey : option string
}.

(** [{ ...monopile, lat, lng }] *)
Definition with_coordinates (lat lng : JSValue) (monopile : Monopile) : Monopile :=
  <["lng" := lng]> (<["lat" := lat]> monopile).

(** ** dataUtils: search and manual placement *)

Section DataUtils.

(** [String(n)] for a number is the engine's shortest round-trip decimal
    rendering; it is taken as given. *)
Variable Number_toString : float → string.

(** [String(v)] *)
Definition ToString (v : JSValue) : string :=
  match v with
  | JUndefined => "undefined"
  | JNull => "null"
  | JBool true => "true"
  | JBool false => "false"
  | JNum n => Number_toString n
  | JStr s => s
  end.

(** The callback of [monopiles.filter] in [filterMonopiles]. *)
Definition matchesQuery (idColumnKey lowerQuery : string) (monopile : Monopile) : bool :=
  if negb (bool_decide (idColumnKey = ""))
     && includes (toLowerCase (ToString (prop monopile idColumnKey))) lowerQuery
  then true
  else existsb
         (fun key => includes (toLowerCase (ToString (prop monopile key))) lowerQuery)
         (Object_keys monopile).

Definition filterMonopiles (monopiles : list Monopile) (query idColumnKey : string)
  : list Monopile :=
  if bool_decide (query = "") then monopiles
  else
    let lowerQuery := toLowerCase query in
    List.filter (matchesQuery idColumnKey lowerQuery) monopiles.

End DataUtils.

Definition updateMonopileCoordinates (monopiles : list Monopile)
    (idColumnKey id : string) (lat lng : float) : list Monopile :=
  List.map
    (fun monopile =>
       if strict_eq (prop monopile idColumnKey) (JStr id)
       then with_coordinates (JNum lat) (JNum lng) monopile
       else monopile)
    monopiles.

(** ** Exceptions, results and promises *)

Inductive Exn : Type :=
  | UnsupportedFileFormat     (* new Error('Unsupported file format') *)
  | InvalidPointCoordinates   (* new Error('Invalid point coordinates in GeoJSON') *)
  | JSONSyntaxError           (* raised by JSON.parse *)
  | NullDereference           (* TypeError: property read on null *)
  | ReaderError (msg : string) (* raised inside the workbook reader *).

(** The outcome of a synchronous call that may throw. *)
Inductive result (A : Type) : Type :=
  | Ok (a : A)
  | Throw (e : Exn).
Arguments Ok {A} a.
Arguments Throw {A} e.

#[global] Instance result_ret : MRet result := fun A a => Ok a.
#[global] Instance result_bind : MBind result := fun A B f r =>
  match r with
  | Ok a => f a
  | Throw e => Throw e
  end.

(** [xs.map(f)] when [f] may throw: elements are visited in order and the
    first exception aborts the whole call. *)
Fixpoint mapThrowing {A B : Type} (f : A → result B) (xs : list A) : result (list B) :=
  match xs with
  | [] => Ok []
  | x :: xs' => y ← f x; ys ← mapThrowing f xs'; mret (y :: ys)
  end.

(** The eventual state of a promise. *)
Inductive Promise (A : Type) : Type :=
  | Resolved (a : A)
  | Rejected (e : Exn)
  | Pending.
Arguments Resolved {A} a.
Arguments Rejected {A} e.
Arguments Pending {A}.

(** ** GeoJSON *)

(** A geometry as far as these utilities read it: its [type] tag and, for a
    Point, its position array ([None] when the member is absent or null). *)
Record Geometry : Type := {
  type : string;
  coordinates : option (list JSValue)
}.

Record Feature : Type := {
  geometry : option Geometry;
  properties : option Monopile
}.

Record FeatureCollection : Type := {
  features : list Feature
}.

(** ** mapUtils: GeoJSON to rows and back *)

(** [feature.geometry && feature.geometry.type === 'Point'] *)
Definition isPointFeature (feature : Feature) : bool :=
  match geometry feature with
  | Some g => bool_decide (type g = "Point")
  | None => false
  end.

(** The callback of [.map] in [extractMonopilesFromGeoJson]. *)
Definition linkedPoint (idColumnKey : string) (feature : Feature) : result Monopile :=
  match geometry feature ≫= coordinates with
  | None => Throw InvalidPointCoordinates
  | Some coords =>
      if (length coords <? 2)%nat then Throw InvalidPointCoordinates
      else
        let props := default ∅ (properties feature) in
        Ok (with_coordinates
              (default JUndefined (coords !! 1%nat))
              (default JUndefined (coords !! 0%nat))
              (props ∪ {[ "id" := js_or (prop props idColumnKey) (JStr "unknown") ]}))
  end.

Definition extractMonopilesFromGeoJson (geojson : FeatureCollection)
    (idColumnKey : string) : result (list Monopile) :=
  mapThrowing (linkedPoint idColumnKey) (List.filter isPointFeature (features geojson)).

(** [m.lat && m.lng] used as a condition. *)
Definition hasCoordinates (m : Monopile) : bool :=
  truthy (prop m "lat") && truthy (prop m "lng").

(** The feature built for one monopile by [addMonopiles] and
    [createGeoJsonFromMonopiles]. *)
Definition monopileFeature (idColumnKey : string) (monopile : Monopile) : Feature :=
  {| geometry :=
       Some {| type := "Point";
               coordinates := Some [prop monopile "lng"; prop monopile "lat"] |};
     properties := Some (monopile ∪ {[ "id" := prop monopile idColumnKey ]}) |}.

(** [monopiles.filter(m => m.lat && m.lng).map(...)] *)
Definition monopileFeatures (monopiles : list Monopile) (idColumnKey : string)
  : list Feature :=
  List.map (monopileFeature idColumnKey) (List.filter hasCoordinates monopiles).

Definition createGeoJsonFromMonopiles (monopiles : list Monopile)
    (idColumnKey : string) : FeatureCollection :=
  {| features := monopileFeatures monopiles idColumnKey |}.

(** ** Index: linking handlers *)

(** The row updater shared by [handleIdColumnSelect] and
    [handleGeoJsonIdColumnSelect]:
    [rows.map(row => { const match = monopiles.find(...); ... })]. *)
Definition mergeRow (monopiles : list Monopile) (columnKey : string)
    (row : Monopile) : Monopile :=
  match List.find (fun m => strict_eq (prop m columnKey) (prop row columnKey)) monopiles with
  | Some matched => with_coordinates (prop matched "lat") (prop matched "lng") row
  | None => row
  end.

Definition mergeCoordinates (rows : list Monopile) (monopiles : list Monopile)
    (columnKey : string) : list Monopile :=
  List.map (mergeRow monopiles columnKey) rows.

Record IndexState : Type := {
  searchQuery : string;
  tableData : TableData;
  geoJsonData : option FeatureCollection;
  geoJsonColumns : list ColumnOption;
  geoJsonIdColumn : option string;
  selectedMonopileId : option string;
  filteredIds : list JSValue
}.

Definition setRows (rows' : list Monopile) (td : TableData) : TableData :=
  {| columns := columns td; rows := rows'; idColumnKey := idColumnKey td |}.

Definition setIdColumnKey (key : option string) (td : TableData) : TableData :=
  {| columns := columns td; rows := rows td; idColumnKey := key |}.

Definition setTableData (f : TableData → TableData) (st : IndexState) : IndexState :=
  {| searchQuery := searchQuery st;
     tableData := f (tableData st);
     geoJsonData := geoJsonData st;
     geoJsonColumns := geoJsonColumns st;
     geoJsonIdColumn := geoJsonIdColumn st;
     selectedMonopileId := selectedMonopileId st;
     filteredIds := filteredIds st |}.

Definition setGeoJsonIdColumn (key : option string) (st : IndexState) : IndexState :=
  {| searchQuery := searchQuery st;
     tableData := tableData st;
     geoJsonData := geoJsonData st;
     geoJsonColumns := geoJsonColumns st;
     geoJsonIdColumn := key;
     selectedMonopileId := selectedMonopileId st;
     filteredIds := filteredIds st |}.

Definition setFilteredIds (ids : list JSValue) (st : IndexState) : IndexState :=
  {| searchQuery := searchQuery st;
     tableData := tableData st;
     geoJsonData := geoJsonData st;
     geoJsonColumns := geoJsonColumns st;
     geoJsonIdColumn := geoJsonIdColumn st;
     selectedMonopileId := selectedMonopileId st;
     filteredIds := ids |}.

(** A string used as a condition: [null] and the empty string are falsy. *)
Definition nonEmpty (s : option string) : option string :=
  match s with
  | Some k => if bool_decide (k = "") then None else Some k
  | None => None
  end.

(** The state after the handler returns; [Throw] when the extraction raises. *)
Definition handleIdColumnSelect (st : IndexState) (columnKey : string)
  : result IndexState :=
  let st1 := setTableData (setIdColumnKey (Some columnKey)) st in
  match geoJsonData st with
  | Some geojson =>
      if bool_decide (geoJsonIdColumn st = Some columnKey) then
        monopiles ← extractMonopilesFromGeoJson geojson columnKey;
        mret (setTableData
                (fun prev => setRows (mergeCoordinates (rows prev) monopiles columnKey) prev)
                st1)
      else Ok st1
  | None => Ok st1
  end.

Definition handleGeoJsonIdColumnSelect (st : IndexState) (columnKey : option string)
  : result IndexState :=
  let st1 := setGeoJsonIdColumn columnKey st in
  match nonEmpty columnKey with
  | Some key =>
      if bool_decide (idColumnKey (tableData st) = Some key)
         && (0 <? length (rows (tableData st)))%nat
      then
        match geoJsonData st with
        | None => Throw NullDereference
        | Some geojson =>
            monopiles ← extractMonopilesFromGeoJson geojson key;
            mret (setTableData
                    (fun prev => setRows (mergeCoordinates (rows prev) monopiles key) prev)
                    st1)
        end
      else Ok st1
  | None => Ok st1
  end.

Definition handleMapClick (st : IndexState) (lat lng : float) : IndexState :=
  match nonEmpty (selectedMonopileId st), nonEmpty (idColumnKey (tableData st)) with
  | Some id, Some key =>
      let updatedRows := updateMonopileCoordinates (rows (tableData st)) key id lat lng in
      setTableData (setRows updatedRows) st
  | _, _ => st
  end.

(** The search effect: recompute [filteredIds] from the query. *)
Definition searchEffect (Number_toString : float → string) (st : IndexState) : IndexState :=
  match nonEmpty (idColumnKey (tableData st)) with
  | Some key =>
      if bool_decide (searchQuery st = "") then setFilteredIds [] st
      else
        let filtered :=
          filterMonopiles Number_toString (rows (tableData st)) (searchQuery st) key in
        setFilteredIds (List.map (fun m => prop m key) filtered) st
  | None => setFilteredIds [] st
  end.

(** ** dataUtils: file parsing *)

(** An uploaded file: its name and its content. *)
Record File : Type := {
  name : string;
  contents : string
}.

(** [file.name.split('.').pop()?.toLowerCase()] *)
Definition fileExt (file : File) : option string :=
  toLowerCase <$> last (split "." (name file)).

(** [Object.keys(row).map(key => ({ value: key, label: key }))] *)
Definition columnsOf (row : Monopile) : list ColumnOption :=
  List.map (fun key => {| value := key; label := key |}) (Object_keys row).

(** What the delimited-text reader hands to its [complete] callback. *)
Record PapaResults : Type := {
  data : list Monopile;
  errors : list string
}.

(** The value [JSON.parse] returns. *)
#[local] Set Warnings "-register-all".
Inductive JSON : Type :=
  | JSONnull
  | JSONbool (b : bool)
  | JSONnum (n : float)
  | JSONstr (s : string)
  | JSONarr (elements : list JSON)
  | JSONobj (members : gmap string JSON).

#[local] Set Warnings "register-all".

(** The parsed value is an object with an array-valued [features] member. *)
Definition hasFeaturesArray (v : JSON) : bool :=
  match v with
  | JSONobj members =>
      match members !! "features" with
      | Some (JSONarr _) => true
      | _ => false
      end
  | _ => false
  end.

(** A message handed to the notification interface. *)
Inductive Toast : Type :=
  | ToastError (msg : string)
  | ToastSuccess (msg : string).

Section Parsing.

(** The delimited-text reader, [Papa.parse(file, { header: true, complete })]:
    [Some results] when it invokes [complete] with [results], [None] when
    it never does. *)
Variable Papa_parse : File → option PapaResults.

(** The workbook reader: [XLSX.read] returns a workbook or throws an error
    of its own (its message on the right); [XLSX.utils.sheet_to_json] turns
    a worksheet (or [undefined]) into rows. *)
Variable WorkSheet : Type.

Record WorkBook : Type := {
  SheetNames : list string;
  Sheets : gmap string WorkSheet
}.

Variable XLSX_read : string → WorkBook + string.
Variable sheet_to_json : option WorkSheet → list Monopile.

(** [JSON.parse]: [None] when it raises a SyntaxError. *)
Variable JSON_parse : string → option JSON.

Definition parseFileData (file : File) : Promise TableData :=
  let ext := fileExt file in
  if bool_decide (ext = Some "csv") then
    match Papa_parse file with
    | Some results =>
        Resolved {| columns := columnsOf (default ∅ (head (data results)));
                    rows := data results;
                    idColumnKey := None |}
    | None => Pending
    end
  else if bool_decide (default "" ext ∈ ["xlsx"; "xls"]) then
    match XLSX_read (contents file) with
    | inr msg => Rejected (ReaderError msg)
    | inl workbook =>
        let worksheet :=
          Sheets workbook !! default "undefined" (SheetNames workbook !! 0%nat) in
        let jsonData := sheet_to_json worksheet in
        Resolved {| columns := columnsOf (default ∅ (head jsonData));
                    rows := jsonData;
                    idColumnKey := None |}
    end
  else Rejected UnsupportedFileFormat.

(** [handleTableFileUpload]: the state and the notifications once the
    promise has settled; nothing happens while it is pending. *)
Definition handleTableFileUpload (st : IndexState) (file : File)
  : IndexState * list Toast :=
  match parseFileData file with
  | Resolved data => (setTableData (λ _, data) st, [])
  | Rejected _ =>
      (st, [ToastError "Failed to parse the file. Please check the format."])
  | Pending => (st, [])
  end.

Definition parseGeoJsonFile (file : File) : Promise JSON :=
  match JSON_parse (contents file) with
  | Some value => Resolved value
  | None => Rejected JSONSyntaxError
  end.

End Parsing.

(** ** mapUtils: the map widget *)

(** The layer filter expressions the utilities install. *)
Inductive FilterExpr : Type :=
  | TypeEq (geometryType : string)                 (* ['==', '$type', t] *)
  | InProperty (key : string) (values : list JSValue)
                                                   (* ['in', ['get', key], ['literal', values]] *)
  | All (a b : FilterExpr)                         (* ['all', a, b] *).

Record Layer : Type := {
  layerType : string;
  source : string;
  paint : gmap string JSValue;
  layerFilter : option FilterExpr
}.

Record MonopileStyle : Type := {
  color : string;
  size : float;
  borderColor : string;
  borderWidth : float
}.

Section MapWidget.

(** The camera of the widget (center, zoom, bearing, pitch) and the
    provider's [fitBounds], which moves it to show a set of positions. *)
Variable Camera : Type.
Variable cameraFitting : list (list JSValue) → Camera → Camera.

Record MapState : Type := {
  sources : gmap string FeatureCollection;
  layers : gmap string Layer;
  camera : Camera
}.

Definition getSource (m : MapState) (id : string) : option FeatureCollection :=
  sources m !! id.

Definition getLayer (m : MapState) (id : string) : option Layer :=
  layers m !! id.

Definition removeLayer (id : string) (m : MapState) : MapState :=
  {| sources := sources m; layers := delete id (layers m); camera := camera m |}.

Definition removeSource (id : string) (m : MapState) : MapState :=
  {| sources := delete id (sources m); layers := layers m; camera := camera m |}.

Definition addSource (id : string) (geojson : FeatureCollection) (m : MapState)
  : MapState :=
  {| sources := <[id := geojson]> (sources m); layers := layers m; camera := camera m |}.

Definition addLayer (id : string) (layer : Layer) (m : MapState) : MapState :=
  {| sources := sources m; layers := <[id := layer]> (layers m); camera := camera m |}.

Definition withFilter (f : option FilterExpr) (layer : Layer) : Layer :=
  {| layerType := layerType layer; source := source layer;
     paint := paint layer; layerFilter := f |}.

(** [map.setFilter(id, f)]: replaces the filter of an existing layer; a
    missing layer is reported by the widget and nothing changes.  The
    expression is recorded as it is passed: the widget's own validation of
    filter expressions is outside this model. *)
Definition setFilter (id : string) (f : option FilterExpr) (m : MapState) : MapState :=
  {| sources := sources m;
     layers := alter (withFilter f) id (layers m);
     camera := camera m |}.

(** [map.fitBounds(bounds, { padding: 50 })] *)
Definition fitBounds (bounds : list (list JSValue)) (m : MapState) : MapState :=
  {| sources := sources m; layers := layers m;
     camera := cameraFitting bounds (camera m) |}.

Definition addMonopiles (m : MapState) (monopiles : list Monopile)
    (idColumnKey : string) (style : MonopileStyle) : MapState :=
  let m1 :=
    if present (getSource m "monopile-data")
    then removeSource "monopile-data" (removeLayer "monopile-layer" m)
    else m in
  let features := monopileFeatures monopiles idColumnKey in
  let m2 := addSource "monopile-data" {| features := features |} m1 in
  let m3 :=
    addLayer "monopile-layer"
      {| layerType := "circle";
         source := "monopile-data";
         paint := {[ "circle-color" := JStr (color style);
                     "circle-radius" := JNum (size style);
                     "circle-stroke-color" := JStr (borderColor style);
                     "circle-stroke-width" := JNum (borderWidth style) ]};
         layerFilter := None |}
      m2 in
  if (0 <? length features)%nat then
    let bounds :=
      List.map (fun feature => default [] (geometry feature ≫= coordinates)) features in
    fitBounds bounds m3
  else m3.

Definition filterMonopilesByIds (m : MapState) (ids : list JSValue)
    (idColumnKey : string) : MapState :=
  if present (getSource m "monopile-data") then
    match ids with
    | [] => setFilter "monopile-layer" None m
    | _ => setFilter "monopile-layer" (Some (InProperty idColumnKey ids)) m
    end
  else m.

Definition geoJsonLayerIds : list string :=
  ["geojson-fill-layer"; "geojson-line-layer"; "geojson-point-layer"].

(** The geometry-class filter each overlay layer is created with. *)
Definition baseFilter (layerId : string) : option FilterExpr :=
  if bool_decide (layerId = "geojson-point-layer") then Some (TypeEq "Point")
  else if bool_decide (layerId = "geojson-fill-layer") then Some (TypeEq "Polygon")
  else None.

Definition filterGeoJsonByProperty (m : MapState) (propertyKey : string)
    (propertyValues : list JSValue) : MapState :=
  if present (getSource m "geojson-data") then
    match propertyValues with
    | [] =>
        foldl
          (fun m layerId =>
             if present (getLayer m layerId) then setFilter layerId (baseFilter layerId) m else m)
          m geoJsonLayerIds
    | _ =>
        foldl
          (fun m layerId =>
             if present (getLayer m layerId) then
               let propertyFilter := InProperty propertyKey propertyValues in
               match baseFilter layerId with
               | Some base => setFilter layerId (Some (All base propertyFilter)) m
               | None => setFilter layerId (Some propertyFilter) m
               end
             else m)
          m geoJsonLayerIds
    end
  else m.

End MapWidget.

Arguments sources {Camera} _.
Arguments layers {Camera} _.
Arguments camera {Camera} _.
Arguments getSource {Camera} m id.
Arguments getLayer {Camera} m id.
Arguments removeLayer {Camera} id m.
Arguments removeSource {Camera} id m.
Arguments addSource {Camera} id geojson m.
Arguments addLayer {Camera} id layer m.
Arguments setFilter {Camera} id f m.
Arguments fitBounds {Camera} cameraFitting bounds m.
Arguments addMonopiles {Camera} cameraFitting m monopiles idColumnKey style.
Arguments filterMonopilesByIds {Camera} m ids idColumnKey.
Arguments filterGeoJsonByProperty {Camera} m propertyKey propertyValues.

(** The layers of the widget with their filters left out: what a call that
    only sets filter expressions cannot change. *)
Definition unfiltered {Camera : Type} (m : MapState Camera) : gmap string Layer :=
  withFilter None <$> layers m.

(** What a filter call leaves alone: camera, sources, and every layer up to
    its filter. *)
Definition sameButFilters {Camera : Type} (m' m : MapState Camera) : Prop :=
  camera m' = camera m ∧ sources m' = sources m ∧ unfiltered m' = unfiltered m.

(** The geometry class the widget's [$type] reports for a feature. *)
Definition geometryClass (feature : Feature) : option string :=
  match geometry feature with
  | Some g =>
      if bool_decide (type g ∈ ["Point"; "MultiPoint"]) then Some "Point"
      else if bool_decide (type g ∈ ["LineString"; "MultiLineString"]) then Some "LineString"
      else if bool_decide (type g ∈ ["Polygon"; "MultiPolygon"]) then Some "Polygon"
      else None
  | None => None
  end.

(** Whether a feature satisfies a filter expression. *)
Fixpoint passes (e : FilterExpr) (feature : Feature) : bool :=
  match e with
  | TypeEq t => bool_decide (geometryClass feature = Some t)
  | InProperty key values =>
      existsb (strict_eq (prop (default ∅ (properties feature)) key)) values
  | All a b => passes a feature && passes b feature
  end.

(** A layer draws the features of its source that satisfy its filter; a
    layer without filter draws them all. *)
Definition layerShows (layer : Layer) (feature : Feature) : bool :=
  match layerFilter layer with
  | Some e => passes e feature
  | None => true
  end.

(** Manual placement as the specification words it: only the first row whose
    identifier matches receives the coordinates, later duplicates are kept. *)
Fixpoint placeOnFirstMatch (monopiles : list Monopile) (idColumnKey id : string)
    (lat lng : float) : list Monopile :=
  match monopiles with
  | [] => []
  | monopile :: rest =>
      if strict_eq (prop monopile idColumnKey) (JStr id)
      then with_coordinates (JNum lat) (JNum lng) monopile :: rest
      else monopile :: placeOnFirstMatch rest idColumnKey id lat lng
  end.

(** The linked point as the specification words it:
    [{id: properties[key] ?? 'unknown', ...properties, lat: coordinates[1],
      lng: coordinates[0]}]. *)
Definition linkedPointNullish (idColumnKey : string) (props : Monopile)
    (coords : list JSValue) : Monopile :=
  with_coordinates
    (default JUndefined (coords !! 1%nat))
    (default JUndefined (coords !! 0%nat))
    (props ∪ {[ "id" := js_nullish (prop props idColumnKey) (JStr "unknown") ]}).

(** The linked point the extraction builds, with [||] for the default. *)
Definition linkedPointShape (idColumnKey : string) (props : Monopile)
    (coords : list JSValue) : Monopile :=
  with_coordinates
    (default JUndefined (coords !! 1%nat))
    (default JUndefined (coords !! 0%nat))
    (props ∪ {[ "id" := js_or (prop props idColumnKey) (JStr "unknown") ]}).

(** A Point feature the extraction accepts: its position has two components. *)
Definition wellFormedPoint (feature : Feature) : Prop :=
  ∃ coords, geometry feature ≫= coordinates = Some coords ∧ (2 ≤ length coords)%nat.

(** ** Strings of ASCII characters *)

(** On these strings [toLowerCase] above is the whole of the built-in
    folding, and [includes] is the built-in test. *)
Definition isASCII (s : string) : bool :=
  forallb (λ c, (nat_of_ascii c <? 128)%nat) (list_ascii_of_string s).

(** ** dataUtils: candidate identifier columns *)

(** [geojson.features[0]?.properties || {}], then one option per key. *)
Definition extractGeoJsonIdColumns (geojson : FeatureCollection) : list ColumnOption :=
  columnsOf (default ∅ (head (features geojson) ≫= properties)).

(** ** mapUtils: restyling *)

Module MapStyle.
Record t : Type := {
  color : string;
  width : float;
  opacity : float
}.
End MapStyle.

Definition withPaint (name : string) (value : JSValue) (layer : Layer) : Layer :=
  {| layerType := layerType layer; source := source layer;
     paint := <[name := value]> (paint layer); layerFilter := layerFilter layer |}.

Section Restyling.

Variable Camera : Type.

(** [map.setPaintProperty(id, name, value)]: sets one paint property of an
    existing layer; a missing layer is reported by the widget and nothing
    changes. *)
Definition setPaintProperty (layerId name : string) (value : JSValue)
    (m : MapState Camera) : MapState Camera :=
  {| sources := sources m;
     layers := alter (withPaint name value) layerId (layers m);
     camera := camera m |}.

Definition updateMonopileStyle (m : MapState Camera) (style : MonopileStyle)
  : MapState Camera :=
  if present (getSource m "monopile-data") then
    let m1 := setPaintProperty "monopile-layer" "circle-color" (JStr (color style)) m in
    let m2 := setPaintProperty "monopile-layer" "circle-radius" (JNum (size style)) m1 in
    let m3 :=
      setPaintProperty "monopile-layer" "circle-stroke-color" (JStr (borderColor style)) m2 in
    setPaintProperty "monopile-layer" "circle-stroke-width" (JNum (borderWidth style)) m3
  else m.

Definition updateGeoJsonStyle (m : MapState Camera) (style : MapStyle.t)
  : MapState Camera :=
  if present (getSource m "geojson-data") then
    let m1 :=
      setPaintProperty "geojson-fill-layer" "fill-color" (JStr (MapStyle.color style)) m in
    let m2 :=
      setPaintProperty "geojson-fill-layer" "fill-opacity"
        (JNum (MapStyle.opacity style * 0.5)%float) m1 in
    let m3 :=
      setPaintProperty "geojson-line-layer" "line-color" (JStr (MapStyle.color style)) m2 in
    let m4 :=
      setPaintProperty "geojson-line-layer" "line-width" (JNum (MapStyle.width style)) m3 in
    let m5 :=
      setPaintProperty "geojson-line-layer" "line-opacity" (JNum (MapStyle.opacity style)) m4 in
    let m6 :=
      setPaintProperty "geojson-point-layer" "circle-color" (JStr (MapStyle.color style)) m5 in
    let m7 :=
      setPaintProperty "geojson-point-layer" "circle-radius"
        (JNum (MapStyle.width style * 2)%float) m6 in
    setPaintProperty "geojson-point-layer" "circle-opacity"
      (JNum (MapStyle.opacity style)) m7
  else m.

End Restyling.

Arguments setPaintProperty {Camera} layerId name value m.
Arguments updateMonopileStyle {Camera} m style.
Arguments updateGeoJsonStyle {Camera} m style.

(** The filter an overlay layer ends up with after
    [filterGeoJsonByProperty]: its geometry-class filter alone for no
    values, combined with the property test otherwise. *)
Definition overlayFilter (layerId propertyKey : string) (propertyValues : list JSValue)
  : option FilterExpr :=
  match propertyValues with
  | [] => baseFilter layerId
  | _ =>
      match baseFilter layerId with
      | Some base => Some (All base (InProperty propertyKey propertyValues))
      | None => Some (InProperty propertyKey propertyValues)
      end
  end.

(** ** mapUtils: the GeoJSON overlay *)

(** A position array, or [None] where a position is null. *)
Abbreviation Position := (option (list JSValue)).

(** The geometry of an overlay feature with its coordinate arrays, by
    geometry class; [None] for a [coordinates] member that is absent or
    null.  [OOther] is a geometry without coordinates (a GeometryCollection,
    or any tag). *)
Inductive OverlayGeometry : Type :=
  | OPoint (coordinates : Position)
  | OMultiPoint (coordinates : option (list Position))
  | OLineString (coordinates : option (list Position))
  | OMultiLineString (coordinates : option (list (list Position)))
  | OPolygon (coordinates : option (list (list Position)))
  | OMultiPolygon (coordinates : option (list (list (list Position))))
  | OOther (tag : string).

Record OverlayFeature : Type := {
  overlayGeometry : option OverlayGeometry;
  overlayProperties : option Monopile
}.

Record OverlayCollection : Type := {
  overlayFeatures : list OverlayFeature
}.

Definition geometryTag (g : OverlayGeometry) : string :=
  match g with
  | OPoint _ => "Point"
  | OMultiPoint _ => "MultiPoint"
  | OLineString _ => "LineString"
  | OMultiLineString _ => "MultiLineString"
  | OPolygon _ => "Polygon"
  | OMultiPolygon _ => "MultiPolygon"
  | OOther tag => tag
  end.

(** The same feature as the linking utilities and the filters read it: tag,
    Point position and properties. *)
Definition asFeature (feature : OverlayFeature) : Feature :=
  {| geometry :=
       (λ g, {| type := geometryTag g;
                coordinates := match g with OPoint c => c | _ => None end |})
       <$> overlayGeometry feature;
     properties := overlayProperties feature |}.

Definition asFeatureCollection (geojson : OverlayCollection) : FeatureCollection :=
  {| features := List.map asFeature (overlayFeatures geojson) |}.

(** [array.forEach(f)] when [f] may throw, threading the state [f] updates. *)
Fixpoint foldlThrowing {A S : Type} (f : S → A → result S) (s : S) (xs : list A)
  : result S :=
  match xs with
  | [] => Ok s
  | x :: xs' => s' ← f s x; foldlThrowing f s' xs'
  end.

(** The bounds being built and the flag [hasValidFeatures]; the bounds are
    the positions they were extended with, in order. *)
Record BoundsScan : Type := {
  bounds : list (list JSValue);
  hasValidFeatures : bool
}.

(** [if (coord && coord.length >= 2) { bounds.extend([coord[0], coord[1]]);
    hasValidFeatures = true; }] *)
Definition extendWith (scan : BoundsScan) (coord : Position) : BoundsScan :=
  match coord with
  | Some c =>
      if (2 <=? length c)%nat then
        {| bounds :=
             bounds scan
             ++ [[default JUndefined (c !! 0%nat); default JUndefined (c !! 1%nat)]];
           hasValidFeatures := true |}
      else scan
  | None => scan
  end.

Definition extendAll (scan : BoundsScan) (coords : list Position) : BoundsScan :=
  foldl extendWith scan coords.

(** The body of [geojson.features.forEach] in [addGeoJsonLayer]. *)
Definition scanFeature (scan : BoundsScan) (feature : OverlayFeature) : result BoundsScan :=
  match overlayGeometry feature with
  | None => Ok scan
  | Some (OPoint coordinates) => Ok (extendWith scan coordinates)
  | Some (OPolygon (Some (ring :: _))) => Ok (extendAll scan ring)
  | Some (OLineString (Some coordinates)) => Ok (extendAll scan coordinates)
  | Some (OMultiPoint (Some coordinates)) => Ok (extendAll scan coordinates)
  | Some (OMultiLineString (Some lines)) => Ok (foldl extendAll scan lines)
  | Some (OMultiPolygon (Some polygons)) =>
      foldlThrowing
        (λ scan polygon,
           match polygon with
           | ring :: _ => Ok (extendAll scan ring)
           | [] => Throw NullDereference   (* polygon[0] is undefined *)
           end)
        scan polygons
  | Some _ => Ok scan
  end.

(** [new LngLatBounds()], [hasValidFeatures = false], then the loop over the
    features. *)
Definition scanBounds (geojson : OverlayCollection) : result BoundsScan :=
  foldlThrowing scanFeature {| bounds := []; hasValidFeatures := false |}
    (overlayFeatures geojson).

Definition overlayFillLayer (style : MapStyle.t) : Layer :=
  {| layerType := "fill";
     source := "geojson-data";
     paint := {[ "fill-color" := JStr (MapStyle.color style);
                 "fill-opacity" := JNum (MapStyle.opacity style * 0.5)%float ]};
     layerFilter := Some (TypeEq "Polygon") |}.

Definition overlayLineLayer (style : MapStyle.t) : Layer :=
  {| layerType := "line";
     source := "geojson-data";
     paint := {[ "line-color" := JStr (MapStyle.color style);
                 "line-width" := JNum (MapStyle.width style);
                 "line-opacity" := JNum (MapStyle.opacity style) ]};
     layerFilter := None |}.

Definition overlayPointLayer (style : MapStyle.t) : Layer :=
  {| layerType := "circle";
     source := "geojson-data";
     paint := {[ "circle-radius" := JNum (MapStyle.width style * 2)%float;
                 "circle-color" := JStr (MapStyle.color style);
                 "circle-opacity" := JNum (MapStyle.opacity style) ]};
     layerFilter := Some (TypeEq "Point") |}.

Section Overlay.

Variable Camera : Type.
Variable cameraFitting : list (list JSValue) → Camera → Camera.

(** The [try] block that ends [addGeoJsonLayer]: an exception inside it is
    caught and logged, and the camera is then left alone. *)
Definition fitToOverlay (geojson : OverlayCollection) (m : MapState Camera)
  : MapState Camera :=
  match scanBounds geojson with
  | Ok scan =>
      if hasValidFeatures scan && negb (bool_decide (bounds scan = []))
      then fitBounds cameraFitting (bounds scan) m
      else m
  | Throw _ => m
  end.

(** The sources of the widget keep the collection as the filters read it. *)
Definition addGeoJsonLayer (m : MapState Camera) (geojson : OverlayCollection)
    (style : MapStyle.t) : MapState Camera :=
  let m1 :=
    if present (getSource m "geojson-data") then
      let a :=
        if present (getLayer m "geojson-fill-layer")
        then removeLayer "geojson-fill-layer" m else m in
      let b :=
        if present (getLayer a "geojson-line-layer")
        then removeLayer "geojson-line-layer" a else a in
      let c :=
        if present (getLayer b "geojson-point-layer")
        then removeLayer "geojson-point-layer" b else b in
      removeSource "geojson-data" c
    else m in
  let m2 := addSource "geojson-data" (asFeatureCollection geojson) m1 in
  let m3 := addLayer "geojson-fill-layer" (overlayFillLayer style) m2 in
  let m4 := addLayer "geojson-line-layer" (overlayLineLayer style) m3 in
  let m5 := addLayer "geojson-point-layer" (overlayPointLayer style) m4 in
  fitToOverlay geojson m5.

End Overlay.

Arguments fitToOverlay {Camera} cameraFitting geojson m.
Arguments addGeoJsonLayer {Camera} cameraFitting m geojson style.

(** A feature that gives the bounds nothing to extend with: no geometry, a
    geometry without coordinates, or a Point with fewer than two
    components. *)
Definition withoutPosition (feature : OverlayFeature) : Prop :=
  match overlayGeometry feature with
  | None => True
  | Some (OPoint None) | Some (OMultiPoint None) | Some (OLineString None)
  | Some (OMultiLineString None) | Some (OPolygon None) | Some (OMultiPolygon None)
  | Some (OOther _) => True
  | Some (OPoint (Some c)) => (length c < 2)%nat
  | Some _ => False
  end.

(** A MultiPolygon one of whose polygons has no ring. *)
Definition hasEmptyPolygon (feature : OverlayFeature) : Prop :=
  ∃ polygons, overlayGeometry feature = Some (OMultiPolygon (Some polygons))
              ∧ [] ∈ polygons.

(** ** Map component: effects and click *)

Section MapComponent.

Variable Camera : Type.
Variable cameraFitting : list (list JSValue) → Camera → Camera.

(** The effects take the widget held by the component ([None] before it is
    created) and whether it reports to be loaded, and return the widget
    afterwards. *)

(** "Add monopiles to map" *)
Definition monopilesEffect (current : option (MapState Camera)) (loaded : bool)
    (monopiles : list Monopile) (tableIdColumn : option string)
    (monopileStyle : MonopileStyle) : option (MapState Camera) :=
  match current, nonEmpty tableIdColumn with
  | Some m, Some key =>
      if loaded && (0 <? length monopiles)%nat then
        let validMonopiles := List.filter hasCoordinates monopiles in
        if (0 <? length validMonopiles)%nat
        then Some (addMonopiles cameraFitting m monopiles key monopileStyle)
        else Some m
      else Some m
  | _, _ => current
  end.

(** "Filter monopiles based on search" *)
Definition monopileFilterEffect (current : option (MapState Camera)) (loaded : bool)
    (tableIdColumn : option string) (filteredIds : list JSValue)
  : option (MapState Camera) :=
  match current, nonEmpty tableIdColumn with
  | Some m, Some key =>
      if loaded && (0 <? length filteredIds)%nat
      then Some (filterMonopilesByIds m filteredIds key)
      else Some m
  | _, _ => current
  end.

(** "Filter GeoJSON features by search filter" *)
Definition geoJsonFilterEffect (current : option (MapState Camera)) (loaded : bool)
    (geoJsonData : option FeatureCollection) (geoJsonIdColumn : option string)
    (filteredIds : list JSValue) : option (MapState Camera) :=
  match current, nonEmpty geoJsonIdColumn with
  | Some m, Some key =>
      if loaded && present geoJsonData && (0 <? length filteredIds)%nat
      then Some (filterGeoJsonByProperty m key filteredIds)
      else Some m
  | _, _ => current
  end.

(** "Add GeoJSON data to map" *)
Definition geoJsonEffect (current : option (MapState Camera)) (loaded : bool)
    (geoJsonData : option OverlayCollection) (geoJsonStyle : MapStyle.t)
  : option (MapState Camera) :=
  match current, geoJsonData with
  | Some m, Some geojson =>
      if loaded then Some (addGeoJsonLayer cameraFitting m geojson geoJsonStyle)
      else Some m
  | _, _ => current
  end.

(** "Update GeoJSON style when changed" *)
Definition geoJsonStyleEffect (current : option (MapState Camera)) (loaded : bool)
    (geoJsonData : option OverlayCollection) (geoJsonStyle : MapStyle.t)
  : option (MapState Camera) :=
  match current, geoJsonData with
  | Some m, Some _ =>
      if loaded then Some (updateGeoJsonStyle m geoJsonStyle) else Some m
  | _, _ => current
  end.

(** "Update monopile style when changed" *)
Definition monopileStyleEffect (current : option (MapState Camera)) (loaded : bool)
    (monopiles : list Monopile) (monopileStyle : MonopileStyle)
  : option (MapState Camera) :=
  match current with
  | Some m =>
      if loaded && (0 <? length monopiles)%nat
      then Some (updateMonopileStyle m monopileStyle)
      else Some m
  | None => None
  end.

End MapComponent.

Arguments monopilesEffect {Camera} cameraFitting current loaded monopiles tableIdColumn
  monopileStyle.
Arguments monopileFilterEffect {Camera} current loaded tableIdColumn filteredIds.
Arguments geoJsonFilterEffect {Camera} current loaded geoJsonData geoJsonIdColumn
  filteredIds.
Arguments monopileStyleEffect {Camera} current loaded monopiles monopileStyle.
Arguments geoJsonEffect {Camera} cameraFitting current loaded geoJsonData geoJsonStyle.
Arguments geoJsonStyleEffect {Camera} current loaded geoJsonData geoJsonStyle.

(** The click listener of the map: [if (hasGeoJson || !selectedMonopileId)
    return; onMapClick(lat, lng)], with [hasGeoJson = !!geoJsonData] and
    [onMapClick = handleMapClick]. *)
Definition mapClickListener (st : IndexState) (lat lng : float) : IndexState :=
  if present (geoJsonData st) || negb (present (nonEmpty (selectedMonopileId st)))
  then st
  else handleMapClick st lat lng.

(** ** Index and DataTable: selection and display *)

Definition handleMonopileSelect (st : IndexState) (id : string) : IndexState :=
  {| searchQuery := searchQuery st;
     tableData := tableData st;
     geoJsonData := geoJsonData st;
     geoJsonColumns := geoJsonColumns st;
     geoJsonIdColumn := geoJsonIdColumn st;
     selectedMonopileId := Some id;
     filteredIds := filteredIds st |}.

(** [handleRowClick]: the value handed to [onRowSelect], if any. *)
Definition handleRowClick (idColumnKey : option string) (hasGeoJson : bool)
    (monopile : Monopile) : option JSValue :=
  match nonEmpty idColumnKey with
  | Some key => if hasGeoJson then None else Some (prop monopile key)
  | None => None
  end.

(** The comparison of [Array.prototype.includes]: as [===], except that
    [NaN] is found. *)
Definition sameValueZero (a b : JSValue) : bool :=
  match a, b with
  | JNum x, JNum y => PrimFloat.eqb x y || (PrimFloat.is_nan x && PrimFloat.is_nan y)
  | _, _ => strict_eq a b
  end.

(** [xs.includes(v)] *)
Definition Array_includes (xs : list JSValue) (v : JSValue) : bool :=
  existsb (λ x, sameValueZero x v) xs.

(** [displayData], from the rows as sorted for display. *)
Definition displayData (sortedData : list Monopile) (searchQuery : string)
    (filteredIds : list JSValue) (idColumnKey : option string) : list Monopile :=
  match nonEmpty idColumnKey with
  | Some key =>
      if negb (bool_decide (searchQuery = "")) && (0 <? length filteredIds)%nat
      then List.filter (λ row, Array_includes filteredIds (prop row key)) sortedData
      else sortedData
  | None => sortedData
  end.

(** ** FileUpload: the drop handlers *)

Inductive DropOutcome : Type :=
  | DropIgnored                   (* no file: nothing happens *)
  | DropRefused (toast : Toast)   (* the extension test fails *)
  | DropForwarded (file : File)   (* handed to the upload handler *).

Definition onTableDrop (acceptedFiles : list File) : DropOutcome :=
  match head acceptedFiles with
  | None => DropIgnored
  | Some file =>
      if negb (bool_decide (default "" (fileExt file) ∈ ["csv"; "xlsx"; "xls"]))
      then DropRefused (ToastError "Please upload a CSV or Excel file")
      else DropForwarded file
  end.

Definition onGeoJsonDrop (acceptedFiles : list File) : DropOutcome :=
  match head acceptedFiles with
  | None => DropIgnored
  | Some file =>
      if negb (bool_decide (fileExt file = Some "geojson"))
      then DropRefused (ToastError "Please upload a GeoJSON file")
      else DropForwarded file
  end.

(** The linked point of a feature, as [extractMonopilesFromGeoJson] builds it
    when it does not throw. *)
Definition linkedPointOf (idColumnKey : string) (feature : Feature) : Monopile :=
  linkedPointShape idColumnKey (default ∅ (properties feature))
    (default [] (geometry feature ≫= coordinates)).

(** ** Sample data *)

(** The two-row table [[{id:"A1",name:"Foo"},{id:"A2",name:"Bar"}]] and a
    variant in which the identifier [A2] occurs twice. *)
Definition rowA1 : Monopile := {[ "id" := JStr "A1"; "name" := JStr "Foo" ]}.
Definition rowA2 : Monopile := {[ "id" := JStr "A2"; "name" := JStr "Bar" ]}.
Definition rowA2bis : Monopile := {[ "id" := JStr "A2"; "name" := JStr "Baz" ]}.
Definition sampleRows : list Monopile := [rowA1; rowA2].
Definition duplicateRows : list Monopile := [rowA1; rowA2; rowA2bis].

(** Two linked points that carry the same identifier [A1]. *)
Definition pointA1first : Monopile :=
  {[ "id" := JStr "A1"; "lat" := JNum 52.25%float; "lng" := JNum 4.5%float ]}.
Definition pointA1second : Monopile :=
  {[ "id" := JStr "A1"; "lat" := JNum 10%float; "lng" := JNum 20%float ]}.
Definition collidingPoints : list Monopile := [pointA1first; pointA1second].

(** A collection whose only Point feature has the empty string as its
    [pid] property, next to a LineString feature. *)
Definition blankIdProperties : Monopile := {[ "pid" := JStr "" ]}.
Definition blankIdFeature : Feature :=
  {| geometry := Some {| type := "Point";
                         coordinates := Some [JNum 4.5%float; JNum 52.25%float] |};
     properties := Some blankIdProperties |}.
Definition lineFeature : Feature :=
  {| geometry := Some {| type := "LineString"; coordinates := None |};
     properties := Some {[ "pid" := JStr "L1" ]} |}.
Definition blankIdCollection : FeatureCollection :=
  {| features := [lineFeature; blankIdFeature] |}.

(** An upload named [Monopiles.CSV] together with readers for it: the
    delimited-text reader completes with the two sample rows and one reported
    error; the workbook reader is not involved. *)
Definition csvUpload : File :=
  {| name := "Monopiles.CSV"; contents := "id,name,A1,Foo,A2" |}.
Definition papaSample (file : File) : option PapaResults :=
  Some {| data := sampleRows; errors := ["TooFewFields"] |}.
Definition xlsxFailing (bytes : string) : WorkBook unit + string :=
  inr "File is password-protected".
Definition sheetEmpty (sheet : option unit) : list Monopile := [].

(** A workbook upload the workbook reader refuses, an upload whose name has
    no dot, and a delimited-text reader whose read of the file fails: it
    reports through its [error] callback, which [parseFileData] does not
    pass, and never calls [complete]. *)
Definition protectedWorkbook : File :=
  {| name := "piles.v2.xlsx"; contents := "" |}.
Definition dotlessUpload : File :=
  {| name := "csv"; contents := "id,name,A1,Foo,A2" |}.
Definition papaSilent (file : File) : option PapaResults := None.

(** A JSON reader for the single document [{}], the empty object; on that
    text it returns what [JSON.parse] returns. *)
Definition JSON_parse_braces (text : string) : option JSON :=
  if bool_decide (text = "{}") then Some (JSONobj ∅) else None.
Definition emptyObjectUpload : File :=
  {| name := "empty.geojson"; contents := "{}" |}.

(** A monopile on the equator (latitude 0) and one placed further north. *)
Definition equatorPile : Monopile :=
  {[ "id" := JStr "MP-1"; "lat" := JNum 0%float; "lng" := JNum 5%float ]}.
Definition northPile : Monopile :=
  {[ "id" := JStr "MP-2"; "lat" := JNum 53%float; "lng" := JNum 5%float ]}.

(** The GeoJSON point of the monopile on the equator. *)
Definition equatorCollection : FeatureCollection :=
  {| features :=
       [ {| geometry := Some {| type := "Point";
                                coordinates := Some [JNum 5%float; JNum 0%float] |};
            properties := Some {[ "id" := JStr "MP-1" ]} |} ] |}.

(** A widget holding the monopile source and layer, the layer restricted to
    the identifier [MP-2]; its camera is a (center, zoom) triple. *)
Definition circleLayer (f : option FilterExpr) : Layer :=
  {| layerType := "circle"; source := "monopile-data"; paint := ∅; layerFilter := f |}.
Definition filteredWidget : MapState (float * float * float) :=
  {| sources := {[ "monopile-data" := createGeoJsonFromMonopiles [northPile] "id" ]};
     layers := {[ "monopile-layer" := circleLayer (Some (InProperty "id" [JStr "MP-2"])) ]};
     camera := (5%float, 53%float, 9%float) |}.

(** A widget with the overlay loaded and its line layer restricted to the
    features whose [id] is [MP-7]. *)
Definition overlayLayer (kind : string) (f : option FilterExpr) : Layer :=
  {| layerType := kind; source := "geojson-data"; paint := ∅; layerFilter := f |}.
Definition searchedOverlay : MapState (float * float * float) :=
  {| sources := {[ "geojson-data" := equatorCollection ]};
     layers :=
       {[ "geojson-fill-layer" := overlayLayer "fill" (Some (TypeEq "Polygon"));
          "geojson-line-layer" :=
            overlayLayer "line" (Some (InProperty "id" [JStr "MP-7"]));
          "geojson-point-layer" := overlayLayer "circle" (Some (TypeEq "Point")) ]};
     camera := (5%float, 53%float, 9%float) |}.

(** The sample table holds no numeric cell, so the rendering of numbers is
    immaterial for it; this one renders every number as [NaN]. *)
Definition renderingNaN (n : float) : string := "NaN".

(** The page state after the sample table is loaded, [id] is chosen as the
    identifier column and [foo] is typed into the search box. *)
Definition searchingState : IndexState :=
  {| searchQuery := "foo";
     tableData := {| columns := columnsOf rowA1; rows := sampleRows;
                     idColumnKey := Some "id" |};
     geoJsonData := None;
     geoJsonColumns := [];
     geoJsonIdColumn := None;
     selectedMonopileId := None;
     filteredIds := [] |}.

(** A collection with a polygon, a Point without the linking property and
    two Points carrying the identifier [A1]; linked on the property [name]. *)
Definition namedPoint (name : string) (lng lat : float) : Feature :=
  {| geometry := Some {| type := "Point"; coordinates := Some [JNum lng; JNum lat] |};
     properties := Some {[ "name" := JStr name ]} |}.
Definition linkingCollection : FeatureCollection :=
  {| features :=
       [ {| geometry := Some {| type := "Polygon"; coordinates := None |};
            properties := Some {[ "name" := JStr "Foo" ]} |};
         namedPoint "Bar" 5 53;
         namedPoint "Foo" 4.5 52.25;
         namedPoint "Foo" 20 10 ] |}.

(** The page state once the sample table and the linking collection are
    loaded, before either identifier column is chosen. *)
Definition loadedState : IndexState :=
  {| searchQuery := "";
     tableData := {| columns := columnsOf rowA1; rows := sampleRows; idColumnKey := None |};
     geoJsonData := Some linkingCollection;
     geoJsonColumns := extractGeoJsonIdColumns linkingCollection;
     geoJsonIdColumn := None;
     selectedMonopileId := None;
     filteredIds := [] |}.

(** The page in manual placement mode: the sample table with [id] chosen as
    the identifier column and no GeoJSON collection. *)
Definition manualState : IndexState :=
  {| searchQuery := "";
     tableData := {| columns := columnsOf rowA1; rows := sampleRows;
                     idColumnKey := Some "id" |};
     geoJsonData := None;
     geoJsonColumns := [];
     geoJsonIdColumn := None;
     selectedMonopileId := None;
     filteredIds := [] |}.

(** An overlay of one well-formed Point followed by a MultiPolygon whose
    second polygon has no ring. *)
Definition overlayPoint : OverlayFeature :=
  {| overlayGeometry := Some (OPoint (Some [JNum 4.5; JNum 52.25]));
     overlayProperties := Some {[ "name" := JStr "A1" ]} |}.
Definition ringlessMultiPolygon : OverlayFeature :=
  {| overlayGeometry :=
       Some (OMultiPolygon
               (Some [[[Some [JNum 4; JNum 52]; Some [JNum 5; JNum 52];
                        Some [JNum 5; JNum 53]; Some [JNum 4; JNum 52]]];
                      []]));
     overlayProperties := None |}.
Definition ringlessOverlay : OverlayCollection :=
  {| overlayFeatures := [overlayPoint; ringlessMultiPolygon] |}.

Definition overlayStyle : MapStyle.t :=
  {| MapStyle.color := "#3b82f6"; MapStyle.width := 2; MapStyle.opacity := 0.5 |}.

(** * Properties *)

(** ** Values and rows *)

Lemma strict_eq_JStr (v : JSValue) (s : string) :
  strict_eq v (JStr s) = true ↔ v = JStr s.
Proof.
  destruct v; simpl; try (split; [discriminate | intros; discriminate]).
  rewrite bool_decide_eq_true. split; congruence.
Qed.

Lemma with_coordinates_lat (lat lng : JSValue) (row : Monopile) :
  with_coordinates lat lng row !! "lat" = Some lat.
Proof. unfold with_coordinates. by simplify_map_eq. Qed.

Lemma with_coordinates_lng (lat lng : JSValue) (row : Monopile) :
  with_coordinates lat lng row !! "lng" = Some lng.
Proof. unfold with_coordinates. by simplify_map_eq. Qed.

Lemma with_coordinates_other (lat lng : JSValue) (row : Monopile) (k : string) :
  k ≠ "lat" → k ≠ "lng" → with_coordinates lat lng row !! k = row !! k.
Proof. intros ? ?. unfold with_coordinates. by simplify_map_eq. Qed.

Lemma js_or_default (v d : JSValue) :
  js_or v d = d ↔ truthy v = false ∨ v = d.
Proof.
  unfold js_or. destruct (truthy v) eqn:E; split; auto.
  intros [? | ?]; [discriminate | done].
Qed.

Lemma js_nullish_default (v : JSValue) (s : string) :
  js_nullish v (JStr s) = JStr s ↔ v = JUndefined ∨ v = JNull ∨ v = JStr s.
Proof.
  destruct v; simpl; split; intros H; auto;
    try discriminate; destruct H as [H | [H | H]]; congruence.
Qed.

(** ** Search filtering *)

Lemma filter_bool_idempotent {A : Type} (p : A → bool) (l : list A) :
  List.filter p (List.filter p l) = List.filter p l.
Proof.
  induction l as [| x l IH]; simpl; [done |].
  destruct (p x) eqn:Hp; simpl; [| done].
  by rewrite Hp, IH.
Qed.

Lemma filter_bool_sublist {A : Type} (p : A → bool) (l : list A) :
  sublist (List.filter p l) l.
Proof.
  induction l as [| x l IH]; simpl; [constructor |].
  destruct (p x); by constructor.
Qed.

Section SearchFilter.

Variable Number_toString : float → string.

Lemma filterMonopiles_sublist (monopiles : list Monopile) (q idColumnKey : string) :
  sublist (filterMonopiles Number_toString monopiles q idColumnKey) monopiles.
Proof.
  unfold filterMonopiles. case_bool_decide; [done |].
  apply filter_bool_sublist.
Qed.

(** C5: filtering with the empty query returns the record list itself;
    for every query, filtering twice is the same as filtering once, and the
    result is a sub-sequence of the input (so a subset of it, in the input
    order). *)
Theorem filterMonopiles_empty_idempotent_subset
    (monopiles : list Monopile) (q idColumnKey : string) :
  filterMonopiles Number_toString monopiles "" idColumnKey = monopiles
  ∧ filterMonopiles Number_toString
      (filterMonopiles Number_toString monopiles q idColumnKey) q idColumnKey
    = filterMonopiles Number_toString monopiles q idColumnKey
  ∧ sublist (filterMonopiles Number_toString monopiles q idColumnKey) monopiles
  ∧ (∀ m, m ∈ filterMonopiles Number_toString monopiles q idColumnKey → m ∈ monopiles).
Proof.
  split; [done |]. split; [| split].
  - unfold filterMonopiles. case_bool_decide; [done |].
    apply filter_bool_idempotent.
  - apply filterMonopiles_sublist.
  - intros m Hm. eapply sublist_subseteq; [apply filterMonopiles_sublist | done].
Qed.

End SearchFilter.

Lemma filterMonopiles_empty_idempotent_subset_witness :
  filterMonopiles renderingNaN sampleRows "" "id" = sampleRows
  ∧ filterMonopiles renderingNaN (filterMonopiles renderingNaN sampleRows "Foo" "id") "Foo" "id"
    = filterMonopiles renderingNaN sampleRows "Foo" "id"
  ∧ sublist (filterMonopiles renderingNaN sampleRows "Foo" "id") sampleRows
  ∧ (∀ m, m ∈ filterMonopiles renderingNaN sampleRows "Foo" "id" → m ∈ sampleRows).
Proof.
  exact (filterMonopiles_empty_idempotent_subset renderingNaN sampleRows "Foo" "id").
Defined.

(** Searching [foo] in the sample table selects the identifier [A1] only,
    whatever the rendering of numbers. *)
Lemma searchEffect_foo (Number_toString : float → string) :
  filterMonopiles Number_toString sampleRows "foo" "id" = [rowA1]
  ∧ filteredIds (searchEffect Number_toString searchingState) = [JStr "A1"].
Proof. split; reflexivity. Qed.

(** ** Manual placement *)

Lemma lookup_List_map {A B : Type} (f : A → B) (l : list A) (i : nat) :
  List.map f l !! i = f <$> l !! i.
Proof.
  revert i. induction l as [| x l IH]; intros [| i]; simpl; auto.
Qed.

(** C3 (as amended): manual placement replaces [lat] and [lng] on every row
    whose identifier-column value is the given identifier, keeping the other
    fields of such a row, and returns every other row unchanged; the row
    count and row order are kept. *)
Theorem updateMonopileCoordinates_every_match
    (monopiles : list Monopile) (idColumnKey id : string) (lat lng : float)
    (i : nat) (row : Monopile) :
  monopiles !! i = Some row →
  length (updateMonopileCoordinates monopiles idColumnKey id lat lng) = length monopiles
  ∧ ∃ row',
      updateMonopileCoordinates monopiles idColumnKey id lat lng !! i = Some row'
      ∧ (prop row idColumnKey = JStr id →
           row' !! "lat" = Some (JNum lat)
           ∧ row' !! "lng" = Some (JNum lng)
           ∧ ∀ k, k ≠ "lat" → k ≠ "lng" → row' !! k = row !! k)
      ∧ (prop row idColumnKey ≠ JStr id → row' = row).
Proof.
  intros Hrow. unfold updateMonopileCoordinates.
  split; [apply length_map |].
  rewrite lookup_List_map, Hrow. simpl.
  eexists; split; [reflexivity |].
  destruct (strict_eq (prop row idColumnKey) (JStr id)) eqn:Heq.
  - split; [| intros Hne; apply strict_eq_JStr in Heq; contradiction].
    intros _. repeat split.
    + apply with_coordinates_lat.
    + apply with_coordinates_lng.
    + intros k ? ?. by apply with_coordinates_other.
  - split; [| done].
    intros Hid. apply strict_eq_JStr in Hid. congruence.
Qed.

Lemma updateMonopileCoordinates_every_match_witness :
  length (updateMonopileCoordinates duplicateRows "id" "A2" 53 5) = length duplicateRows
  ∧ ∃ row',
      updateMonopileCoordinates duplicateRows "id" "A2" 53 5 !! 2%nat = Some row'
      ∧ (prop rowA2bis "id" = JStr "A2" →
           row' !! "lat" = Some (JNum 53)
           ∧ row' !! "lng" = Some (JNum 5)
           ∧ ∀ k, k ≠ "lat" → k ≠ "lng" → row' !! k = rowA2bis !! k)
      ∧ (prop rowA2bis "id" ≠ JStr "A2" → row' = rowA2bis).
Proof.
  apply (updateMonopileCoordinates_every_match duplicateRows "id" "A2" 53 5 2 rowA2bis).
  reflexivity.
Defined.

(** C3 (counterexample): with the identifier [A2] on two rows, the later
    duplicate row receives the coordinates as well, so it is not returned
    untouched and the result differs from a first-match-only placement. *)
Lemma updateMonopileCoordinates_changes_later_duplicate :
  updateMonopileCoordinates duplicateRows "id" "A2" 53 5 !! 2%nat
    = Some (with_coordinates (JNum 53) (JNum 5) rowA2bis)
  ∧ with_coordinates (JNum 53) (JNum 5) rowA2bis ≠ rowA2bis
  ∧ updateMonopileCoordinates duplicateRows "id" "A2" 53 5
    ≠ placeOnFirstMatch duplicateRows "id" "A2" 53 5.
Proof.
  assert (Hne : with_coordinates (JNum 53) (JNum 5) rowA2bis ≠ rowA2bis).
  { intros H. apply (f_equal (λ row : Monopile, row !! "lat")) in H.
    rewrite with_coordinates_lat in H. vm_compute in H. discriminate. }
  split; [reflexivity |]. split; [exact Hne |].
  intros H. apply (f_equal (λ l : list Monopile, l !! 2%nat)) in H.
  change (Some (with_coordinates (JNum 53) (JNum 5) rowA2bis) = Some rowA2bis) in H.
  congruence.
Qed.

(** ** Linking *)

Lemma find_none_iff {A : Type} (p : A → bool) (l : list A) :
  List.find p l = None ↔ ∀ x, x ∈ l → p x = false.
Proof.
  induction l as [| y l IH]; simpl.
  - split; [intros _ x Hx; inversion Hx | done].
  - destruct (p y) eqn:Hy.
    + split; [discriminate |]. intros H. specialize (H y (list_elem_of_here y l)). congruence.
    + rewrite IH. split.
      * intros H x Hx. apply elem_of_cons in Hx as [-> | Hx]; auto.
      * intros H x Hx. apply H. by apply list_elem_of_further.
Qed.

Lemma find_first_match {A : Type} (p : A → bool) (before after : list A) (x : A) :
  (∀ y, y ∈ before → p y = false) → p x = true →
  List.find p (before ++ x :: after) = Some x.
Proof.
  intros Hbefore Hx. induction before as [| y before IH]; simpl.
  - by rewrite Hx.
  - rewrite (Hbefore y (list_elem_of_here y before)).
    apply IH. intros z Hz. apply Hbefore. by apply list_elem_of_further.
Qed.

Lemma mergeRow_other_fields (monopiles : list Monopile) (columnKey : string)
    (row : Monopile) (k : string) :
  k ≠ "lat" → k ≠ "lng" → mergeRow monopiles columnKey row !! k = row !! k.
Proof.
  intros ? ?. unfold mergeRow.
  destruct (List.find _ monopiles); [by apply with_coordinates_other | done].
Qed.

Lemma mergeRow_no_match (monopiles : list Monopile) (columnKey : string) (row : Monopile) :
  (∀ m, m ∈ monopiles → strict_eq (prop m columnKey) (prop row columnKey) = false) →
  mergeRow monopiles columnKey row = row.
Proof.
  intros Hnone. unfold mergeRow.
  by rewrite (proj2 (find_none_iff _ monopiles) Hnone).
Qed.

(** C2: merging linked points into the table keeps the number of rows and
    their order (the row at each position is the input row of that position,
    with at most [lat] and [lng] replaced), and a row whose identifier value
    matches no linked point is returned with all of its fields unchanged. *)
Theorem mergeCoordinates_order_preserving
    (rows monopiles : list Monopile) (columnKey : string) (i : nat) (row : Monopile) :
  rows !! i = Some row →
  length (mergeCoordinates rows monopiles columnKey) = length rows
  ∧ ∃ row',
      mergeCoordinates rows monopiles columnKey !! i = Some row'
      ∧ (∀ k, k ≠ "lat" → k ≠ "lng" → row' !! k = row !! k)
      ∧ ((∀ m, m ∈ monopiles →
            strict_eq (prop m columnKey) (prop row columnKey) = false) →
         row' = row).
Proof.
  intros Hrow. unfold mergeCoordinates.
  split; [apply length_map |].
  rewrite lookup_List_map, Hrow. simpl.
  eexists; split; [reflexivity |]. split.
  - intros k ? ?. by apply mergeRow_other_fields.
  - apply mergeRow_no_match.
Qed.

Lemma mergeCoordinates_order_preserving_witness :
  length (mergeCoordinates sampleRows collidingPoints "id") = length sampleRows
  ∧ ∃ row',
      mergeCoordinates sampleRows collidingPoints "id" !! 1%nat = Some row'
      ∧ (∀ k, k ≠ "lat" → k ≠ "lng" → row' !! k = rowA2 !! k)
      ∧ ((∀ m, m ∈ collidingPoints →
            strict_eq (prop m "id") (prop rowA2 "id") = false) →
         row' = rowA2).
Proof.
  apply (mergeCoordinates_order_preserving sampleRows collidingPoints "id" 1 rowA2).
  reflexivity.
Defined.

(** C4 (as amended): when several linked points carry the identifier value
    of a table row, the FIRST of them in the linked-point list wins: the
    merged row carries the [lat] and [lng] of the first matching point. *)
Theorem mergeCoordinates_first_match_wins
    (rows before after : list Monopile) (matched : Monopile) (columnKey : string)
    (i : nat) (row : Monopile) :
  rows !! i = Some row →
  (∀ m, m ∈ before → strict_eq (prop m columnKey) (prop row columnKey) = false) →
  strict_eq (prop matched columnKey) (prop row columnKey) = true →
  mergeCoordinates rows (before ++ matched :: after) columnKey !! i
  = Some (with_coordinates (prop matched "lat") (prop matched "lng") row).
Proof.
  intros Hrow Hbefore Hmatch. unfold mergeCoordinates.
  rewrite lookup_List_map, Hrow. simpl. f_equal.
  unfold mergeRow.
  by rewrite (find_first_match _ before after matched Hbefore Hmatch).
Qed.

Lemma mergeCoordinates_first_match_wins_witness :
  mergeCoordinates sampleRows ([] ++ pointA1first :: [pointA1second]) "id" !! 0%nat
  = Some (with_coordinates (prop pointA1first "lat") (prop pointA1first "lng") rowA1).
Proof.
  apply (mergeCoordinates_first_match_wins sampleRows [] [pointA1second] pointA1first
           "id" 0 rowA1).
  - reflexivity.
  - intros m Hm. inversion Hm.
  - reflexivity.
Defined.

(** C4 (counterexample): two linked points carry the identifier [A1]; the
    merged row [A1] has the coordinates of the first one, and these differ
    from the coordinates of the last one. *)
Lemma mergeCoordinates_last_match_loses :
  mergeCoordinates sampleRows collidingPoints "id" !! 0%nat
    = Some (with_coordinates (JNum 52.25) (JNum 4.5) rowA1)
  ∧ last collidingPoints = Some pointA1second
  ∧ strict_eq (prop pointA1second "id") (prop rowA1 "id") = true
  ∧ with_coordinates (JNum 52.25) (JNum 4.5) rowA1
    ≠ with_coordinates (prop pointA1second "lat") (prop pointA1second "lng") rowA1.
Proof.
  repeat split; try reflexivity.
  intros H. apply (f_equal (λ row : Monopile, prop row "lat")) in H.
  unfold prop in H. rewrite !with_coordinates_lat in H. vm_compute in H.
  apply (f_equal (λ v, match v with JNum n => PrimFloat.eqb n 10 | _ => true end)) in H.
  vm_compute in H. discriminate.
Qed.

(** The handlers install exactly the merged rows. *)
Lemma handleGeoJsonIdColumnSelect_rows
    (st st' : IndexState) (key : string) (geojson : FeatureCollection) :
  key ≠ "" →
  idColumnKey (tableData st) = Some key →
  rows (tableData st) ≠ [] →
  geoJsonData st = Some geojson →
  handleGeoJsonIdColumnSelect st (Some key) = Ok st' →
  ∃ monopiles,
    extractMonopilesFromGeoJson geojson key = Ok monopiles
    ∧ rows (tableData st') = mergeCoordinates (rows (tableData st)) monopiles key.
Proof.
  intros Hkey Hid Hrows Hgeo. unfold handleGeoJsonIdColumnSelect. simpl.
  rewrite bool_decide_eq_false_2 by done.
  rewrite Hid, bool_decide_eq_true_2 by done.
  destruct (rows (tableData st)) as [| r rs] eqn:Er; [done |]. simpl.
  rewrite Hgeo.
  destruct (extractMonopilesFromGeoJson geojson key) as [monopiles | e]; simpl;
    [| discriminate].
  intros [= <-]. exists monopiles. split; [done |]. simpl. by rewrite Er.
Qed.

Lemma handleIdColumnSelect_rows
    (st st' : IndexState) (key : string) (geojson : FeatureCollection) :
  geoJsonData st = Some geojson →
  geoJsonIdColumn st = Some key →
  handleIdColumnSelect st key = Ok st' →
  ∃ monopiles,
    extractMonopilesFromGeoJson geojson key = Ok monopiles
    ∧ rows (tableData st') = mergeCoordinates (rows (tableData st)) monopiles key.
Proof.
  intros Hgeo Hcol. unfold handleIdColumnSelect.
  rewrite Hgeo, Hcol, bool_decide_eq_true_2 by done.
  destruct (extractMonopilesFromGeoJson geojson key) as [monopiles | e]; simpl;
    [| discriminate].
  intros [= <-]. by exists monopiles.
Qed.

Lemma handleMapClick_rows (st : IndexState) (id key : string) (lat lng : float) :
  nonEmpty (selectedMonopileId st) = Some id →
  nonEmpty (idColumnKey (tableData st)) = Some key →
  rows (tableData (handleMapClick st lat lng))
  = updateMonopileCoordinates (rows (tableData st)) key id lat lng.
Proof. intros Hid Hkey. unfold handleMapClick. by rewrite Hid, Hkey. Qed.

(** ** GeoJSON to linked points *)

Lemma linkedPoint_well_formed (idColumnKey : string) (feature : Feature)
    (coords : list JSValue) :
  geometry feature ≫= coordinates = Some coords → (2 ≤ length coords)%nat →
  linkedPoint idColumnKey feature
  = Ok (linkedPointShape idColumnKey (default ∅ (properties feature)) coords).
Proof.
  intros Hc Hlen. unfold linkedPoint. rewrite Hc.
  destruct (length coords <? 2)%nat eqn:E; [| done].
  apply Nat.ltb_lt in E. lia.
Qed.

Lemma linkedPoint_malformed (idColumnKey : string) (feature : Feature) :
  ¬ wellFormedPoint feature →
  linkedPoint idColumnKey feature = Throw InvalidPointCoordinates.
Proof.
  intros Hbad. unfold linkedPoint.
  destruct (geometry feature ≫= coordinates) as [coords |] eqn:Hc; [| done].
  destruct (length coords <? 2)%nat eqn:E; [done |].
  apply Nat.ltb_ge in E. exfalso. apply Hbad. by exists coords.
Qed.

Lemma mapThrowing_linkedPoint (idColumnKey : string) (points : list Feature) :
  Forall wellFormedPoint points →
  ∃ records,
    mapThrowing (linkedPoint idColumnKey) points = Ok records
    ∧ Forall2
        (λ feature record, ∃ coords,
           geometry feature ≫= coordinates = Some coords
           ∧ (2 ≤ length coords)%nat
           ∧ record = linkedPointShape idColumnKey (default ∅ (properties feature)) coords)
        points records.
Proof.
  induction 1 as [| feature points [coords [Hc Hlen]] _ [records [IH1 IH2]]]; simpl.
  - exists []. split; [done | constructor].
  - rewrite (linkedPoint_well_formed _ _ _ Hc Hlen), IH1. simpl.
    eexists. split; [reflexivity |].
    constructor; [| done]. by exists coords.
Qed.

Lemma linkedPointShape_fields (idColumnKey : string) (props : Monopile)
    (coords : list JSValue) :
  (2 ≤ length coords)%nat →
  linkedPointShape idColumnKey props coords !! "lat" = coords !! 1%nat
  ∧ linkedPointShape idColumnKey props coords !! "lng" = coords !! 0%nat
  ∧ (∀ k v, k ≠ "lat" → k ≠ "lng" → props !! k = Some v →
       linkedPointShape idColumnKey props coords !! k = Some v)
  ∧ (props !! "id" = None →
       linkedPointShape idColumnKey props coords !! "id"
       = Some (js_or (prop props idColumnKey) (JStr "unknown"))).
Proof.
  intros Hlen. unfold linkedPointShape.
  destruct coords as [| c0 [| c1 coords]]; simpl in Hlen; try lia.
  split; [apply with_coordinates_lat |].
  split; [apply with_coordinates_lng |].
  split.
  - intros k v ? ? Hk. rewrite with_coordinates_other by done.
    by apply lookup_union_Some_l.
  - intros Hid. rewrite with_coordinates_other by done.
    rewrite lookup_union_r by done. by rewrite lookup_singleton_eq.
Qed.

(** C6 (as amended): when every Point feature has at least two coordinate
    components, the extraction returns exactly one record per Point-geometry
    feature, in feature order, of the shape
    [{id: properties[key] || 'unknown', ...properties, lat: coordinates[1],
      lng: coordinates[0]}]:
    [lat] is the second coordinate component, [lng] the first, the
    properties are carried over, and (unless the properties have an [id] of
    their own) [id] is ['unknown'] exactly when the chosen property is falsy
    or is ['unknown'] itself.  Features whose geometry is not a Point are
    skipped. *)
Theorem extractMonopilesFromGeoJson_shape
    (geojson : FeatureCollection) (idColumnKey : string) :
  Forall wellFormedPoint (List.filter isPointFeature (features geojson)) →
  ∃ records,
    extractMonopilesFromGeoJson geojson idColumnKey = Ok records
    ∧ Forall2
        (λ feature record, ∃ coords,
           let props := default ∅ (properties feature) in
           geometry feature ≫= coordinates = Some coords
           ∧ record = linkedPointShape idColumnKey props coords
           ∧ record !! "lat" = coords !! 1%nat
           ∧ record !! "lng" = coords !! 0%nat
           ∧ (∀ k v, k ≠ "lat" → k ≠ "lng" → props !! k = Some v → record !! k = Some v)
           ∧ (props !! "id" = None →
                (record !! "id" = Some (JStr "unknown")
                 ↔ truthy (prop props idColumnKey) = false
                   ∨ prop props idColumnKey = JStr "unknown")))
        (List.filter isPointFeature (features geojson)) records.
Proof.
  intros Hwf. unfold extractMonopilesFromGeoJson.
  destruct (mapThrowing_linkedPoint idColumnKey _ Hwf) as [records [Hok Hall]].
  exists records. split; [done |].
  eapply Forall2_impl; [exact Hall |].
  intros feature record [coords [Hc [Hlen ->]]]. exists coords. simpl.
  destruct (linkedPointShape_fields idColumnKey (default ∅ (properties feature)) coords Hlen)
    as [Hlat [Hlng [Hother Hid]]].
  repeat split; try done.
  - rewrite Hid by done. intros [= Hunk]. by apply js_or_default.
  - rewrite Hid by done. intros Hfalsy. f_equal. by apply js_or_default.
Qed.

Lemma extractMonopilesFromGeoJson_shape_witness :
  ∃ records,
    extractMonopilesFromGeoJson blankIdCollection "pid" = Ok records
    ∧ Forall2
        (λ feature record, ∃ coords,
           let props := default ∅ (properties feature) in
           geometry feature ≫= coordinates = Some coords
           ∧ record = linkedPointShape "pid" props coords
           ∧ record !! "lat" = coords !! 1%nat
           ∧ record !! "lng" = coords !! 0%nat
           ∧ (∀ k v, k ≠ "lat" → k ≠ "lng" → props !! k = Some v → record !! k = Some v)
           ∧ (props !! "id" = None →
                (record !! "id" = Some (JStr "unknown")
                 ↔ truthy (prop props "pid") = false
                   ∨ prop props "pid" = JStr "unknown")))
        (List.filter isPointFeature (features blankIdCollection)) records.
Proof.
  apply (extractMonopilesFromGeoJson_shape blankIdCollection "pid").
  repeat constructor. exists [JNum 4.5; JNum 52.25]. split; [reflexivity | simpl; lia].
Defined.

(** C6 (counterexample): the chosen property of the only Point feature is
    the empty string, which is neither null nor undefined, yet the extracted
    record has [id = 'unknown']; the record differs from the one built with
    [properties[key] ?? 'unknown'], whose [id] is the empty string. *)
Lemma extractMonopilesFromGeoJson_blank_id_unknown :
  extractMonopilesFromGeoJson blankIdCollection "pid"
    = Ok [linkedPointShape "pid" blankIdProperties [JNum 4.5; JNum 52.25]]
  ∧ prop blankIdProperties "pid" = JStr ""
  ∧ linkedPointShape "pid" blankIdProperties [JNum 4.5; JNum 52.25] !! "id"
    = Some (JStr "unknown")
  ∧ linkedPointNullish "pid" blankIdProperties [JNum 4.5; JNum 52.25] !! "id"
    = Some (JStr "")
  ∧ extractMonopilesFromGeoJson blankIdCollection "pid"
    ≠ Ok [linkedPointNullish "pid" blankIdProperties [JNum 4.5; JNum 52.25]].
Proof.
  assert (Hcode : extractMonopilesFromGeoJson blankIdCollection "pid"
            = Ok [linkedPointShape "pid" blankIdProperties [JNum 4.5; JNum 52.25]])
    by reflexivity.
  assert (Hid : linkedPointShape "pid" blankIdProperties [JNum 4.5; JNum 52.25] !! "id"
            = Some (JStr "unknown")) by reflexivity.
  assert (Hspec : linkedPointNullish "pid" blankIdProperties [JNum 4.5; JNum 52.25] !! "id"
            = Some (JStr "")) by reflexivity.
  split; [exact Hcode |]. split; [reflexivity |].
  split; [exact Hid |]. split; [exact Hspec |].
  rewrite Hcode. intros H.
  apply (f_equal (λ r : result (list Monopile),
                    match r with Ok [m] => m !! "id" | _ => None end)) in H.
  simpl in H. rewrite Hid, Hspec in H. discriminate.
Qed.

(** A Point feature with fewer than two coordinate components makes the
    whole extraction throw. *)
Lemma extractMonopilesFromGeoJson_throws
    (before after : list Feature) (bad : Feature) (idColumnKey : string) :
  Forall wellFormedPoint (List.filter isPointFeature before) →
  isPointFeature bad = true → ¬ wellFormedPoint bad →
  extractMonopilesFromGeoJson {| features := before ++ bad :: after |} idColumnKey
  = Throw InvalidPointCoordinates.
Proof.
  intros Hbefore Hpoint Hbad. unfold extractMonopilesFromGeoJson. simpl.
  rewrite List.filter_app. simpl. rewrite Hpoint.
  induction Hbefore as [| feature points [coords [Hc Hlen]] _ IH]; simpl.
  - by rewrite (linkedPoint_malformed _ _ Hbad).
  - by rewrite (linkedPoint_well_formed _ _ _ Hc Hlen), IH.
Qed.

(** ** File parsing *)

(** Membership in a literal list, as a disjunction of equalities. *)
Ltac literal_members H := rewrite !elem_of_cons, elem_of_nil in H.

Lemma split_nonempty (sep : ascii) (s : string) : split sep s ≠ [].
Proof.
  destruct s as [| c r]; simpl; [done |].
  destruct (Ascii.eqb c sep); [done |].
  by destruct (split sep r).
Qed.

Lemma split_no_separator (sep : ascii) (s : string) :
  sep ∉ list_ascii_of_string s → split sep s = [s].
Proof.
  induction s as [| c r IH]; simpl; [done |].
  intros Hnot. apply not_elem_of_cons in Hnot as [Hne Hr].
  destruct (Ascii.eqb_spec c sep) as [-> | _]; [done |].
  by rewrite IH.
Qed.

Lemma split_after_separator (sep : ascii) (stem ext : string) :
  ∃ l, split sep (stem ++ String sep ext) = (l ++ split sep ext)%list ∧ l ≠ [].
Proof.
  induction stem as [| c r [l [IH Hl]]]; simpl.
  - rewrite Ascii.eqb_refl. by exists [""].
  - destruct (Ascii.eqb c sep).
    + exists ("" :: l). by rewrite IH.
    + rewrite IH. destruct l as [| h t]; [done |]. by exists (String c h :: t).
Qed.

(** The extension is the lowercased segment after the last dot. *)
Lemma fileExt_after_last_dot (file : File) (stem ext : string) :
  name file = stem ++ String "." ext →
  "."%char ∉ list_ascii_of_string ext →
  fileExt file = Some (toLowerCase ext).
Proof.
  intros Hname Hext. unfold fileExt. rewrite Hname.
  destruct (split_after_separator "." stem ext) as [l [-> Hl]].
  rewrite (split_no_separator _ _ Hext).
  by rewrite last_snoc.
Qed.

(** A name without a dot is its own extension. *)
Lemma fileExt_without_dot (file : File) :
  "."%char ∉ list_ascii_of_string (name file) →
  fileExt file = Some (toLowerCase (name file)).
Proof.
  intros Hname. unfold fileExt. by rewrite (split_no_separator _ _ Hname).
Qed.

Lemma Object_keys_dom (row : Monopile) (k : string) : k ∈ Object_keys row ↔ k ∈ dom row.
Proof.
  unfold Object_keys. rewrite elem_of_dom, list_elem_of_fmap. split.
  - intros [[k' v] [-> Hkv]]. apply elem_of_map_to_list in Hkv. by exists v.
  - intros [v Hv]. exists (k, v). split; [done |]. by apply elem_of_map_to_list.
Qed.

Lemma columnsOf_values (row : Monopile) :
  List.map value (columnsOf row) = Object_keys row
  ∧ List.map label (columnsOf row) = Object_keys row.
Proof.
  unfold columnsOf. rewrite !List.map_map. simpl. by rewrite List.map_id.
Qed.

Section ParsingProperties.

Variable Papa_parse : File → option PapaResults.
Variable WorkSheet : Type.
Variable XLSX_read : string → WorkBook WorkSheet + string.
Variable sheet_to_json : option WorkSheet → list Monopile.
Variable JSON_parse : string → option JSON.

Local Abbreviation parseTable := (parseFileData Papa_parse WorkSheet XLSX_read sheet_to_json).
Local Abbreviation uploadTable :=
  (handleTableFileUpload Papa_parse WorkSheet XLSX_read sheet_to_json).

Lemma parseFileData_csv (file : File) :
  fileExt file = Some "csv" →
  parseTable file
  = match Papa_parse file with
    | Some results =>
        Resolved {| columns := columnsOf (default ∅ (head (data results)));
                    rows := data results;
                    idColumnKey := None |}
    | None => Pending
    end.
Proof. intros Hext. unfold parseFileData. by rewrite Hext. Qed.

Lemma parseFileData_workbook (file : File) :
  fileExt file ∈ [Some "xlsx"; Some "xls"] →
  parseTable file
  = match XLSX_read (contents file) with
    | inr msg => Rejected (ReaderError msg)
    | inl workbook =>
        let jsonData :=
          sheet_to_json
            (Sheets WorkSheet workbook
               !! default "undefined" (SheetNames WorkSheet workbook !! 0%nat)) in
        Resolved {| columns := columnsOf (default ∅ (head jsonData));
                    rows := jsonData;
                    idColumnKey := None |}
    end.
Proof.
  intros Hext. unfold parseFileData.
  literal_members Hext.
  destruct Hext as [-> | [-> | []]]; reflexivity.
Qed.

Lemma fileExt_recognized_cases (file : File) :
  fileExt file ∈ [Some "csv"; Some "xlsx"; Some "xls"]
  ↔ fileExt file = Some "csv" ∨ fileExt file ∈ [Some "xlsx"; Some "xls"].
Proof. by rewrite elem_of_cons. Qed.

Lemma parseFileData_other (file : File) :
  fileExt file ∉ [Some "csv"; Some "xlsx"; Some "xls"] →
  parseTable file = Rejected UnsupportedFileFormat.
Proof.
  intros Hext. unfold parseFileData.
  rewrite fileExt_recognized_cases in Hext.
  rewrite bool_decide_eq_false_2 by (intros Hcsv; apply Hext; by left).
  rewrite bool_decide_eq_false_2; [done |].
  intros Hin. apply Hext. right.
  destruct (fileExt file) as [ext |]; simpl in Hin.
  - literal_members Hin. rewrite !elem_of_cons, elem_of_nil.
    destruct Hin as [-> | [-> | []]]; auto.
  - literal_members Hin.
    destruct Hin as [Hin | [Hin | []]]; discriminate.
Qed.

Lemma csv_not_workbook (file : File) :
  fileExt file = Some "csv" → fileExt file ∈ [Some "xlsx"; Some "xls"] → False.
Proof.
  intros ->. rewrite !elem_of_cons, elem_of_nil.
  intros [Hx | [Hx | []]]; discriminate.
Qed.

(** C7 (as amended): the extension of a file is the lowercased text after
    the last dot of its name, or the whole lowercased name when it has no
    dot; tabular parsing fails with the unsupported-format error exactly when
    this extension is not one of csv, xlsx, xls; whenever it produces a
    TableData, the identifier column is not yet chosen.  For csv it produces
    one when the delimited-text reader completes and stays pending when it
    never does; for xlsx and xls it produces one when the workbook reader
    returns a workbook and rejects with the reader's own error when it
    throws. *)
Theorem parseFileData_unsupported_iff (file : File) :
  (∀ stem ext, name file = stem ++ String "." ext →
     "."%char ∉ list_ascii_of_string ext →
     fileExt file = Some (toLowerCase ext))
  ∧ ("."%char ∉ list_ascii_of_string (name file) →
     fileExt file = Some (toLowerCase (name file)))
  ∧ (parseTable file = Rejected UnsupportedFileFormat
     ↔ fileExt file ∉ [Some "csv"; Some "xlsx"; Some "xls"])
  ∧ (∀ td, parseTable file = Resolved td → idColumnKey td = None)
  ∧ (∀ results, fileExt file = Some "csv" → Papa_parse file = Some results →
       ∃ td, parseTable file = Resolved td ∧ idColumnKey td = None)
  ∧ (fileExt file = Some "csv" → Papa_parse file = None → parseTable file = Pending)
  ∧ (∀ workbook, fileExt file ∈ [Some "xlsx"; Some "xls"] →
       XLSX_read (contents file) = inl workbook →
       ∃ td, parseTable file = Resolved td ∧ idColumnKey td = None)
  ∧ (∀ msg, fileExt file ∈ [Some "xlsx"; Some "xls"] →
       XLSX_read (contents file) = inr msg →
       parseTable file = Rejected (ReaderError msg)).
Proof.
  split; [intros stem ext; apply fileExt_after_last_dot |].
  split; [apply fileExt_without_dot |].
  destruct (decide (fileExt file ∈ [Some "csv"; Some "xlsx"; Some "xls"])) as [Hin | Hout].
  - apply fileExt_recognized_cases in Hin as Hcase.
    destruct Hcase as [Hcsv | Hwb].
    + rewrite (parseFileData_csv file Hcsv).
      split; [split; [by destruct (Papa_parse file) | done] |].
      split; [intros td; destruct (Papa_parse file); [by intros [= <-] | done] |].
      split; [intros results _ ->; by eexists |].
      split; [by intros _ -> |].
      split.
      * intros workbook Hwb _. destruct (csv_not_workbook file Hcsv Hwb).
      * intros msg Hwb _. destruct (csv_not_workbook file Hcsv Hwb).
    + rewrite (parseFileData_workbook file Hwb).
      split; [split; [by destruct (XLSX_read (contents file)) | done] |].
      split; [intros td; destruct (XLSX_read (contents file)); [by intros [= <-] | done] |].
      split; [intros results Hcsv _; destruct (csv_not_workbook file Hcsv Hwb) |].
      split; [intros Hcsv _; destruct (csv_not_workbook file Hcsv Hwb) |].
      split.
      * intros workbook _ ->. by eexists.
      * by intros msg _ ->.
  - rewrite (parseFileData_other file Hout).
    split; [done |]. split; [done |].
    split; [intros results Hcsv _; exfalso; apply Hout, fileExt_recognized_cases; by left |].
    split; [intros Hcsv _; exfalso; apply Hout, fileExt_recognized_cases; by left |].
    split.
    + intros workbook Hwb _. exfalso. apply Hout, fileExt_recognized_cases. by right.
    + intros msg Hwb _. exfalso. apply Hout, fileExt_recognized_cases. by right.
Qed.

(** C10 (as amended): for a file whose extension is csv, parsing never
    rejects, whatever the content, so the upload handler never reports a
    parse failure; the promise resolves exactly when the delimited-text
    reader completes, with whatever rows and whatever reported errors, and
    then with a TableData holding exactly those rows, no identifier column,
    and columns derived from the keys of the first row (no column when there
    is no row); when the reader never completes, the promise stays pending
    and the upload handler changes nothing. *)
Theorem parseFileData_csv_never_rejects (file : File) :
  fileExt file = Some "csv" →
  (∀ e, parseTable file ≠ Rejected e)
  ∧ (∀ st, (uploadTable st file).2 = [])
  ∧ (∀ results, Papa_parse file = Some results →
       ∃ td, parseTable file = Resolved td
             ∧ rows td = data results
             ∧ idColumnKey td = None
             ∧ (data results = [] → columns td = [])
             ∧ (∀ row rest, data results = row :: rest →
                  List.map value (columns td) = Object_keys row
                  ∧ ∀ k, k ∈ List.map value (columns td) ↔ k ∈ dom row))
  ∧ ((∃ td, parseTable file = Resolved td) ↔ ∃ results, Papa_parse file = Some results)
  ∧ (Papa_parse file = None →
       parseTable file = Pending ∧ ∀ st, uploadTable st file = (st, [])).
Proof.
  intros Hcsv. unfold handleTableFileUpload.
  rewrite (parseFileData_csv file Hcsv). split; [| split; [| split; [| split]]].
  - intros e. by destruct (Papa_parse file).
  - intros st. by destruct (Papa_parse file).
  - intros results ->. eexists. split; [reflexivity |]. simpl.
    split; [done |]. split; [done |]. split.
    + by intros ->.
    + intros row rest ->. simpl. rewrite (proj1 (columnsOf_values row)).
      split; [done |]. apply Object_keys_dom.
  - destruct (Papa_parse file) as [results |].
    + split; intros _; by eexists.
    + split; intros [? ?]; discriminate.
  - by intros ->.
Qed.

(** C8 (as amended): GeoJSON parsing fails exactly when the file's text
    fails to parse as JSON; every value the text parses to is returned as the
    collection, whether or not it has a [features] array. *)
Theorem parseGeoJsonFile_fails_iff_syntax_error (file : File) :
  (∀ e, parseGeoJsonFile JSON_parse file = Rejected e
        ↔ JSON_parse (contents file) = None ∧ e = JSONSyntaxError)
  ∧ (∀ value, JSON_parse (contents file) = Some value →
       parseGeoJsonFile JSON_parse file = Resolved value)
  ∧ (∀ value, parseGeoJsonFile JSON_parse file = Resolved value →
       JSON_parse (contents file) = Some value).
Proof.
  unfold parseGeoJsonFile.
  destruct (JSON_parse (contents file)) as [value |].
  - split; [| split].
    + intros e. split; [discriminate | by intros [? _]].
    + by intros value' [= ->].
    + by intros value' [= ->].
  - split; [| split].
    + intros e. split; [by intros [= <-] | by intros [_ ->]].
    + discriminate.
    + discriminate.
Qed.

End ParsingProperties.

Lemma parseFileData_unsupported_iff_witness :
  (∀ stem ext, name csvUpload = stem ++ String "." ext →
     "."%char ∉ list_ascii_of_string ext →
     fileExt csvUpload = Some (toLowerCase ext))
  ∧ ("."%char ∉ list_ascii_of_string (name csvUpload) →
     fileExt csvUpload = Some (toLowerCase (name csvUpload)))
  ∧ (parseFileData papaSample unit xlsxFailing sheetEmpty csvUpload
       = Rejected UnsupportedFileFormat
     ↔ fileExt csvUpload ∉ [Some "csv"; Some "xlsx"; Some "xls"])
  ∧ (∀ td, parseFileData papaSample unit xlsxFailing sheetEmpty csvUpload = Resolved td →
       idColumnKey td = None)
  ∧ (∀ results, fileExt csvUpload = Some "csv" → papaSample csvUpload = Some results →
       ∃ td, parseFileData papaSample unit xlsxFailing sheetEmpty csvUpload = Resolved td
             ∧ idColumnKey td = None)
  ∧ (fileExt csvUpload = Some "csv" → papaSample csvUpload = None →
       parseFileData papaSample unit xlsxFailing sheetEmpty csvUpload = Pending)
  ∧ (∀ workbook, fileExt csvUpload ∈ [Some "xlsx"; Some "xls"] →
       xlsxFailing (contents csvUpload) = inl workbook →
       ∃ td, parseFileData papaSample unit xlsxFailing sheetEmpty csvUpload = Resolved td
             ∧ idColumnKey td = None)
  ∧ (∀ msg, fileExt csvUpload ∈ [Some "xlsx"; Some "xls"] →
       xlsxFailing (contents csvUpload) = inr msg →
       parseFileData papaSample unit xlsxFailing sheetEmpty csvUpload
       = Rejected (ReaderError msg)).
Proof.
  exact (parseFileData_unsupported_iff papaSample unit xlsxFailing sheetEmpty csvUpload).
Defined.

(** C7 (counterexample): the file [piles.v2.xlsx] has the recognized
    extension xlsx, yet when the workbook reader refuses its content the
    parsing produces no TableData: it rejects, with the reader's error.  And
    the file named [csv] has no dot in its name, hence no segment after a last
    dot, yet it is not refused as unsupported: it is parsed as delimited
    text. *)
Theorem parseFileData_recognized_without_table :
  fileExt protectedWorkbook = Some "xlsx"
  ∧ parseFileData papaSample unit xlsxFailing sheetEmpty protectedWorkbook
    = Rejected (ReaderError "File is password-protected")
  ∧ (∀ td, parseFileData papaSample unit xlsxFailing sheetEmpty protectedWorkbook
           ≠ Resolved td)
  ∧ ("."%char ∉ list_ascii_of_string (name dotlessUpload))
  ∧ parseFileData papaSample unit xlsxFailing sheetEmpty dotlessUpload
    ≠ Rejected UnsupportedFileFormat
  ∧ (∃ td, parseFileData papaSample unit xlsxFailing sheetEmpty dotlessUpload
           = Resolved td).
Proof.
  split; [reflexivity |]. split; [reflexivity |]. split; [done |].
  split; [| split; [done | by eexists]].
  cbn [name dotlessUpload list_ascii_of_string].
  rewrite !not_elem_of_cons. repeat split; try done. apply not_elem_of_nil.
Qed.

(** C10 (counterexample): the file [Monopiles.CSV] has the extension csv,
    yet when the delimited-text reader never completes the promise does not
    resolve: it stays pending, no TableData is produced, and the upload
    handler leaves the page as it was. *)
Theorem parseFileData_csv_stays_pending :
  fileExt csvUpload = Some "csv"
  ∧ parseFileData papaSilent unit xlsxFailing sheetEmpty csvUpload = Pending
  ∧ (∀ td, parseFileData papaSilent unit xlsxFailing sheetEmpty csvUpload ≠ Resolved td)
  ∧ (∀ st, handleTableFileUpload papaSilent unit xlsxFailing sheetEmpty st csvUpload
           = (st, [])).
Proof. repeat split; done. Qed.

(** Names and the outcome of parsing them: the extension is read without
    regard to case; a workbook the reader refuses is rejected with the
    reader's own error; any other extension is unsupported. *)
Lemma parseFileData_examples :
  fileExt csvUpload = Some "csv"
  ∧ (∃ td, parseFileData papaSample unit xlsxFailing sheetEmpty csvUpload = Resolved td)
  ∧ parseFileData papaSample unit xlsxFailing sheetEmpty
      {| name := "piles.v2.xlsx"; contents := "" |}
    = Rejected (ReaderError "File is password-protected")
  ∧ parseFileData papaSample unit xlsxFailing sheetEmpty
      {| name := "notes.txt"; contents := "id,name" |}
    = Rejected UnsupportedFileFormat
  ∧ parseFileData papaSample unit xlsxFailing sheetEmpty
      {| name := "README"; contents := "id,name" |}
    = Rejected UnsupportedFileFormat.
Proof. repeat split; try reflexivity. by eexists. Qed.

Lemma parseGeoJsonFile_fails_iff_syntax_error_witness :
  (∀ e, parseGeoJsonFile JSON_parse_braces emptyObjectUpload = Rejected e
        ↔ JSON_parse_braces (contents emptyObjectUpload) = None ∧ e = JSONSyntaxError)
  ∧ (∀ value, JSON_parse_braces (contents emptyObjectUpload) = Some value →
       parseGeoJsonFile JSON_parse_braces emptyObjectUpload = Resolved value)
  ∧ (∀ value, parseGeoJsonFile JSON_parse_braces emptyObjectUpload = Resolved value →
       JSON_parse_braces (contents emptyObjectUpload) = Some value).
Proof.
  exact (parseGeoJsonFile_fails_iff_syntax_error JSON_parse_braces emptyObjectUpload).
Defined.

Lemma parseFileData_csv_never_rejects_witness :
  (∀ e, parseFileData papaSample unit xlsxFailing sheetEmpty csvUpload ≠ Rejected e)
  ∧ (∀ st, (handleTableFileUpload papaSample unit xlsxFailing sheetEmpty st csvUpload).2 = [])
  ∧ (∀ results, papaSample csvUpload = Some results →
       ∃ td, parseFileData papaSample unit xlsxFailing sheetEmpty csvUpload = Resolved td
             ∧ rows td = data results
             ∧ idColumnKey td = None
             ∧ (data results = [] → columns td = [])
             ∧ (∀ row rest, data results = row :: rest →
                  List.map value (columns td) = Object_keys row
                  ∧ ∀ k, k ∈ List.map value (columns td) ↔ k ∈ dom row))
  ∧ ((∃ td, parseFileData papaSample unit xlsxFailing sheetEmpty csvUpload = Resolved td)
     ↔ ∃ results, papaSample csvUpload = Some results)
  ∧ (papaSample csvUpload = None →
       parseFileData papaSample unit xlsxFailing sheetEmpty csvUpload = Pending
       ∧ ∀ st, handleTableFileUpload papaSample unit xlsxFailing sheetEmpty st csvUpload
               = (st, [])).
Proof.
  apply (parseFileData_csv_never_rejects papaSample unit xlsxFailing sheetEmpty csvUpload).
  reflexivity.
Defined.

(** C8 (counterexample): the text [{}] parses to the empty object, which has
    no [features] array, and parsing succeeds with that object instead of
    failing. *)
Lemma parseGeoJsonFile_accepts_missing_features :
  JSON_parse_braces (contents emptyObjectUpload) = Some (JSONobj ∅)
  ∧ hasFeaturesArray (JSONobj ∅) = false
  ∧ parseGeoJsonFile JSON_parse_braces emptyObjectUpload = Resolved (JSONobj ∅).
Proof. repeat split; reflexivity. Qed.

(** ** The monopile point layer *)

Lemma hasCoordinates_iff (m : Monopile) :
  hasCoordinates m = true ↔ truthy (prop m "lat") = true ∧ truthy (prop m "lng") = true.
Proof. unfold hasCoordinates. apply andb_true_iff. Qed.

Lemma monopileFeatures_elem (monopiles : list Monopile) (idColumnKey : string)
    (feature : Feature) :
  feature ∈ monopileFeatures monopiles idColumnKey
  ↔ ∃ m, m ∈ monopiles ∧ hasCoordinates m = true ∧ feature = monopileFeature idColumnKey m.
Proof.
  unfold monopileFeatures. rewrite list_elem_of_In, List.in_map_iff. split.
  - intros [m [<- Hm]]. apply List.filter_In in Hm as [Hm Hc].
    exists m. by rewrite list_elem_of_In.
  - intros [m [Hm [Hc ->]]]. exists m. split; [done |].
    apply List.filter_In. by rewrite <- list_elem_of_In.
Qed.

Section MapProperties.

Variable Camera : Type.
Variable cameraFitting : list (list JSValue) → Camera → Camera.

(** Loading the points installs exactly the features of the rows that pass
    the coordinate test. *)
Lemma addMonopiles_source (m : MapState Camera) (monopiles : list Monopile)
    (idColumnKey : string) (style : MonopileStyle) :
  getSource (addMonopiles cameraFitting m monopiles idColumnKey style) "monopile-data"
  = Some (createGeoJsonFromMonopiles monopiles idColumnKey).
Proof.
  unfold addMonopiles, createGeoJsonFromMonopiles, getSource.
  destruct (0 <? length (monopileFeatures monopiles idColumnKey))%nat;
    simpl; apply lookup_insert_eq.
Qed.

(** Loading the points is the call that moves the camera. *)
Lemma addMonopiles_camera (m : MapState Camera) (monopiles : list Monopile)
    (idColumnKey : string) (style : MonopileStyle) :
  camera (addMonopiles cameraFitting m monopiles idColumnKey style)
  = match monopileFeatures monopiles idColumnKey with
    | [] => camera m
    | features =>
        cameraFitting
          (List.map (λ feature, default [] (geometry feature ≫= coordinates)) features)
          (camera m)
    end.
Proof.
  unfold addMonopiles.
  destruct (monopileFeatures monopiles idColumnKey) as [| f fs]; simpl;
    by destruct (present (getSource m "monopile-data")).
Qed.

(** The linking path keeps a latitude of 0: the point on the equator is
    extracted with its coordinates, and it is the row the point layer then
    leaves out. *)
Lemma equator_point_is_extracted :
  extractMonopilesFromGeoJson equatorCollection "id" = Ok [equatorPile]
  ∧ hasCoordinates equatorPile = false.
Proof. split; reflexivity. Qed.

(** C9 (the code at the failing input): a monopile whose latitude is the
    number 0 has a present, numeric [lat] and [lng], yet neither
    [createGeoJsonFromMonopiles] nor [addMonopiles] places a feature for it;
    only the other monopile reaches the point source. *)
Theorem addMonopiles_drops_zero_coordinate
    (m : MapState Camera) (style : MonopileStyle) :
  equatorPile !! "lat" = Some (JNum 0)
  ∧ equatorPile !! "lng" = Some (JNum 5)
  ∧ features (createGeoJsonFromMonopiles [equatorPile; northPile] "id")
    = [monopileFeature "id" northPile]
  ∧ getSource (addMonopiles cameraFitting m [equatorPile; northPile] "id" style)
      "monopile-data"
    = Some {| features := [monopileFeature "id" northPile] |}.
Proof.
  split; [reflexivity |]. split; [reflexivity |]. split; [reflexivity |].
  by rewrite addMonopiles_source.
Qed.

(** ** Map filters *)

Lemma foldl_preserved {B : Type} (view : MapState Camera → B)
    (step : MapState Camera → string → MapState Camera)
    (ids : list string) (m : MapState Camera) :
  (∀ m' id, view (step m' id) = view m') →
  view (foldl step m ids) = view m.
Proof.
  intros Hstep. revert m. induction ids as [| id ids IH]; intros m; simpl; [done |].
  by rewrite IH, Hstep.
Qed.

Lemma setFilter_unfiltered (id : string) (f : option FilterExpr) (m : MapState Camera) :
  unfiltered (setFilter id f m) = unfiltered m.
Proof.
  unfold unfiltered. apply map_eq. intros j. rewrite !lookup_fmap. simpl.
  rewrite lookup_alter. case_decide as Hj; [| done]. subst j.
  by destruct (layers m !! id).
Qed.

Lemma setFilter_sameButFilters (id : string) (f : option FilterExpr) (m : MapState Camera) :
  sameButFilters (setFilter id f m) m.
Proof. repeat split. apply setFilter_unfiltered. Qed.

Lemma foldl_sameButFilters (step : MapState Camera → string → MapState Camera)
    (ids : list string) (m : MapState Camera) :
  (∀ m' id, sameButFilters (step m' id) m') →
  sameButFilters (foldl step m ids) m.
Proof.
  intros Hstep. repeat split.
  - apply (foldl_preserved camera). intros m' id. apply Hstep.
  - apply (foldl_preserved sources). intros m' id. apply Hstep.
  - apply (foldl_preserved unfiltered). intros m' id. apply Hstep.
Qed.

Lemma filterMonopilesByIds_sameButFilters (m : MapState Camera) (ids : list JSValue)
    (idColumnKey : string) :
  sameButFilters (filterMonopilesByIds m ids idColumnKey) m.
Proof.
  unfold filterMonopilesByIds.
  destruct (present (getSource m "monopile-data")); [| done].
  destruct ids; apply setFilter_sameButFilters.
Qed.

Lemma filterGeoJsonByProperty_sameButFilters (m : MapState Camera) (propertyKey : string)
    (propertyValues : list JSValue) :
  sameButFilters (filterGeoJsonByProperty m propertyKey propertyValues) m.
Proof.
  unfold filterGeoJsonByProperty.
  destruct (present (getSource m "geojson-data")); [| done].
  destruct propertyValues as [| v vs]; apply foldl_sameButFilters; intros m' id.
  - destruct (present (getLayer m' id)); [apply setFilter_sameButFilters | done].
  - destruct (present (getLayer m' id)); [| done].
    destruct (baseFilter id); apply setFilter_sameButFilters.
Qed.

Lemma alter_absent (f : Layer → Layer) (id : string) (ls : gmap string Layer) :
  ls !! id = None → alter f id ls = ls.
Proof.
  intros Hnone. apply map_eq. intros j. rewrite lookup_alter.
  case_decide as Hj; [| done]. subst j. by rewrite Hnone.
Qed.

Lemma clear_step_layers (m : MapState Camera) (id : string) :
  layers (if present (getLayer m id) then setFilter id (baseFilter id) m else m)
  = alter (withFilter (baseFilter id)) id (layers m).
Proof.
  unfold getLayer. destruct (layers m !! id) eqn:Hl; simpl; [done |].
  by rewrite alter_absent.
Qed.

Lemma filterGeoJsonByProperty_clear_layers (m : MapState Camera) (propertyKey : string) :
  present (getSource m "geojson-data") = true →
  layers (filterGeoJsonByProperty m propertyKey [])
  = alter (withFilter (baseFilter "geojson-point-layer")) "geojson-point-layer"
      (alter (withFilter (baseFilter "geojson-line-layer")) "geojson-line-layer"
         (alter (withFilter (baseFilter "geojson-fill-layer")) "geojson-fill-layer"
            (layers m))).
Proof.
  intros Hsrc. unfold filterGeoJsonByProperty. rewrite Hsrc. simpl.
  by rewrite !clear_step_layers.
Qed.

(** C1: for every identifier set, empty or not, the point filter and the
    overlay filter leave the camera of the widget as it was, together with
    its sources and everything of its layers but their filter expressions;
    with the empty set the point layer loses its filter, so that it shows
    every feature, and the overlay loses the identifier restriction: its line
    layer is left without filter and shows every feature, its fill layer
    shows exactly the polygons and its point layer exactly the points, as
    when they were created. *)
Theorem filters_keep_camera
    (m : MapState Camera) (ids : list JSValue) (idColumnKey propertyKey : string) :
  camera (filterMonopilesByIds m ids idColumnKey) = camera m
  ∧ camera (filterGeoJsonByProperty m propertyKey ids) = camera m
  ∧ sameButFilters (filterMonopilesByIds m ids idColumnKey) m
  ∧ sameButFilters (filterGeoJsonByProperty m propertyKey ids) m
  ∧ (∀ layer,
       present (getSource m "monopile-data") = true →
       getLayer m "monopile-layer" = Some layer →
       getLayer (filterMonopilesByIds m [] idColumnKey) "monopile-layer"
         = Some (withFilter None layer)
       ∧ ∀ feature, layerShows (withFilter None layer) feature = true)
  ∧ (∀ layer,
       present (getSource m "geojson-data") = true →
       getLayer m "geojson-line-layer" = Some layer →
       getLayer (filterGeoJsonByProperty m propertyKey []) "geojson-line-layer"
         = Some (withFilter None layer)
       ∧ ∀ feature, layerShows (withFilter None layer) feature = true)
  ∧ (∀ layer,
       present (getSource m "geojson-data") = true →
       getLayer m "geojson-fill-layer" = Some layer →
       getLayer (filterGeoJsonByProperty m propertyKey []) "geojson-fill-layer"
         = Some (withFilter (Some (TypeEq "Polygon")) layer)
       ∧ ∀ feature,
           layerShows (withFilter (Some (TypeEq "Polygon")) layer) feature = true
           ↔ geometryClass feature = Some "Polygon")
  ∧ (∀ layer,
       present (getSource m "geojson-data") = true →
       getLayer m "geojson-point-layer" = Some layer →
       getLayer (filterGeoJsonByProperty m propertyKey []) "geojson-point-layer"
         = Some (withFilter (Some (TypeEq "Point")) layer)
       ∧ ∀ feature,
           layerShows (withFilter (Some (TypeEq "Point")) layer) feature = true
           ↔ geometryClass feature = Some "Point").
Proof.
  pose proof (filterMonopilesByIds_sameButFilters m ids idColumnKey) as Hpoint.
  pose proof (filterGeoJsonByProperty_sameButFilters m propertyKey ids) as Hoverlay.
  split; [apply Hpoint |]. split; [apply Hoverlay |].
  split; [exact Hpoint |]. split; [exact Hoverlay |].
  split; [| split; [| split]].
  - intros layer Hsrc Hlayer. split; [| done].
    unfold filterMonopilesByIds. rewrite Hsrc.
    unfold getLayer, setFilter in *. simpl.
    by rewrite lookup_alter_eq, Hlayer.
  - intros layer Hsrc Hlayer. split; [| done].
    unfold getLayer in *.
    rewrite (filterGeoJsonByProperty_clear_layers m propertyKey Hsrc).
    rewrite lookup_alter_ne by done.
    rewrite lookup_alter_eq. rewrite lookup_alter_ne by done.
    by rewrite Hlayer.
  - intros layer Hsrc Hlayer. split.
    + unfold getLayer in *.
      rewrite (filterGeoJsonByProperty_clear_layers m propertyKey Hsrc).
      rewrite lookup_alter_ne by done. rewrite lookup_alter_ne by done.
      by rewrite lookup_alter_eq, Hlayer.
    + intros feature. unfold layerShows. cbn [withFilter layerFilter passes].
      apply bool_decide_eq_true.
  - intros layer Hsrc Hlayer. split.
    + unfold getLayer in *.
      rewrite (filterGeoJsonByProperty_clear_layers m propertyKey Hsrc).
      rewrite lookup_alter_eq. rewrite !lookup_alter_ne by done.
      by rewrite Hlayer.
    + intros feature. unfold layerShows. cbn [withFilter layerFilter passes].
      apply bool_decide_eq_true.
Qed.

End MapProperties.

(** On the sample widgets: a filter on other identifiers leaves the camera
    where it was, on the point layer and on the overlay; the filter on [MP-2]
    is removed from the point layer by the empty identifier set, and the
    restriction to [MP-7] is removed from the overlay's line layer while its
    fill and point layers keep their geometry class, the camera staying
    where it was. *)
Lemma filters_keep_camera_witness :
  camera (filterMonopilesByIds filteredWidget [JStr "MP-1"] "id")
  = (5%float, 53%float, 9%float)
  ∧ camera (filterGeoJsonByProperty searchedOverlay "id" [JStr "MP-1"])
    = (5%float, 53%float, 9%float)
  ∧ camera (filterMonopilesByIds filteredWidget [] "id") = (5%float, 53%float, 9%float)
  ∧ getLayer (filterMonopilesByIds filteredWidget [] "id") "monopile-layer"
    = Some (circleLayer None)
  ∧ camera (filterGeoJsonByProperty searchedOverlay "id" []) = (5%float, 53%float, 9%float)
  ∧ getLayer (filterGeoJsonByProperty searchedOverlay "id" []) "geojson-line-layer"
    = Some (overlayLayer "line" None)
  ∧ getLayer (filterGeoJsonByProperty searchedOverlay "id" []) "geojson-fill-layer"
    = Some (overlayLayer "fill" (Some (TypeEq "Polygon")))
  ∧ getLayer (filterGeoJsonByProperty searchedOverlay "id" []) "geojson-point-layer"
    = Some (overlayLayer "circle" (Some (TypeEq "Point"))).
Proof.
  destruct (filters_keep_camera (float * float * float) filteredWidget [JStr "MP-1"]
              "id" "id") as [Hcam1 _].
  destruct (filters_keep_camera (float * float * float) searchedOverlay [JStr "MP-1"]
              "id" "id") as [_ [Hcam2 _]].
  destruct (filters_keep_camera (float * float * float) filteredWidget [] "id" "id")
    as [Hcam [_ [_ [_ [Hclear _]]]]].
  destruct (filters_keep_camera (float * float * float) searchedOverlay [] "id" "id")
    as [_ [Hcam' [_ [_ [_ [Hline [Hfill Hpoint]]]]]]].
  split; [exact Hcam1 |]. split; [exact Hcam2 |].
  split; [exact Hcam |].
  split;
    [exact (proj1 (Hclear (circleLayer (Some (InProperty "id" [JStr "MP-2"])))
                     eq_refl eq_refl)) |].
  split; [exact Hcam' |].
  split;
    [exact (proj1 (Hline (overlayLayer "line" (Some (InProperty "id" [JStr "MP-7"])))
                     eq_refl eq_refl)) |].
  split;
    [exact (proj1 (Hfill (overlayLayer "fill" (Some (TypeEq "Polygon"))) eq_refl eq_refl)) |].
  exact (proj1 (Hpoint (overlayLayer "circle" (Some (TypeEq "Point"))) eq_refl eq_refl)).
Defined.

(** * Further properties *)

(** ** Coordinates on a row *)

Lemma prop_with_coordinates_other (lat lng : JSValue) (row : Monopile) (k : string) :
  k ≠ "lat" → k ≠ "lng" → prop (with_coordinates lat lng row) k = prop row k.
Proof. intros ? ?. unfold prop. by rewrite with_coordinates_other. Qed.

Lemma with_coordinates_again (lat lng lat' lng' : JSValue) (row : Monopile) :
  with_coordinates lat' lng' (with_coordinates lat lng row) = with_coordinates lat' lng' row.
Proof.
  apply map_eq. intros j.
  destruct (decide (j = "lat")) as [-> | Hlat]; [by rewrite !with_coordinates_lat |].
  destruct (decide (j = "lng")) as [-> | Hlng]; [by rewrite !with_coordinates_lng |].
  by rewrite !with_coordinates_other.
Qed.

Lemma with_coordinates_fixed (lat lng : JSValue) (row : Monopile) :
  with_coordinates lat lng row = row ↔ row !! "lat" = Some lat ∧ row !! "lng" = Some lng.
Proof.
  split.
  - intros Heq. split.
    + rewrite <- Heq at 1. apply with_coordinates_lat.
    + rewrite <- Heq at 1. apply with_coordinates_lng.
  - intros [Hlat Hlng]. apply map_eq. intros j.
    destruct (decide (j = "lat")) as [-> | ?]; [by rewrite with_coordinates_lat |].
    destruct (decide (j = "lng")) as [-> | ?]; [by rewrite with_coordinates_lng |].
    by rewrite with_coordinates_other.
Qed.

Lemma strict_eq_JStr_false (v : JSValue) (s : string) :
  strict_eq v (JStr s) = false ↔ v ≠ JStr s.
Proof.
  rewrite <- strict_eq_JStr. by destruct (strict_eq v (JStr s)).
Qed.

(** ** Manual placement, composed *)

(** X1: manual placement returns the row list unchanged exactly when every
    row carrying the identifier already holds the given [lat] and [lng]; in
    particular it changes nothing when no row carries the identifier. *)
Theorem updateMonopileCoordinates_unchanged_iff
    (monopiles : list Monopile) (idColumnKey id : string) (lat lng : float) :
  updateMonopileCoordinates monopiles idColumnKey id lat lng = monopiles
  ↔ ∀ row, row ∈ monopiles → prop row idColumnKey = JStr id →
      row !! "lat" = Some (JNum lat) ∧ row !! "lng" = Some (JNum lng).
Proof.
  unfold updateMonopileCoordinates.
  induction monopiles as [| m rest IH]; simpl.
  - split; [intros _ row Hrow; inversion Hrow | done].
  - split.
    + intros [= Hm Hrest] row Hrow Hid.
      apply elem_of_cons in Hrow as [-> | Hrow]; [| by apply IH].
      apply strict_eq_JStr in Hid. rewrite Hid in Hm.
      by apply with_coordinates_fixed.
    + intros Hall. f_equal.
      * destruct (strict_eq (prop m idColumnKey) (JStr id)) eqn:Hid; [| done].
        apply with_coordinates_fixed, Hall; [left | by apply strict_eq_JStr].
      * apply IH. intros row Hrow. apply Hall. by right.
Qed.

(** X2: placing twice on the same identifier is the same as placing once
    with the later coordinates, provided the identifier column is not one of
    the coordinate columns. *)
Theorem updateMonopileCoordinates_last_wins
    (monopiles : list Monopile) (idColumnKey id : string) (lat lng lat' lng' : float) :
  idColumnKey ≠ "lat" → idColumnKey ≠ "lng" →
  updateMonopileCoordinates
    (updateMonopileCoordinates monopiles idColumnKey id lat lng) idColumnKey id lat' lng'
  = updateMonopileCoordinates monopiles idColumnKey id lat' lng'.
Proof.
  intros Hlat Hlng. unfold updateMonopileCoordinates.
  rewrite List.map_map. apply List.map_ext. intros m.
  destruct (strict_eq (prop m idColumnKey) (JStr id)) eqn:Hid.
  - rewrite prop_with_coordinates_other, Hid by done.
    apply with_coordinates_again.
  - by rewrite Hid.
Qed.

Lemma updateMonopileCoordinates_last_wins_witness :
  updateMonopileCoordinates
    (updateMonopileCoordinates duplicateRows "id" "A2" 53 5) "id" "A2" 54 6
  = updateMonopileCoordinates duplicateRows "id" "A2" 54 6.
Proof.
  apply (updateMonopileCoordinates_last_wins duplicateRows "id" "A2" 53 5 54 6); done.
Defined.

(** X3: placements on two different identifiers can be made in either
    order, provided the identifier column is not one of the coordinate
    columns. *)
Theorem updateMonopileCoordinates_commute
    (monopiles : list Monopile) (idColumnKey id1 id2 : string)
    (lat1 lng1 lat2 lng2 : float) :
  idColumnKey ≠ "lat" → idColumnKey ≠ "lng" → id1 ≠ id2 →
  updateMonopileCoordinates
    (updateMonopileCoordinates monopiles idColumnKey id1 lat1 lng1) idColumnKey id2 lat2 lng2
  = updateMonopileCoordinates
      (updateMonopileCoordinates monopiles idColumnKey id2 lat2 lng2) idColumnKey id1 lat1 lng1.
Proof.
  intros Hlat Hlng Hids. unfold updateMonopileCoordinates.
  rewrite !List.map_map. apply List.map_ext. intros m.
  destruct (strict_eq (prop m idColumnKey) (JStr id1)) eqn:H1;
    destruct (strict_eq (prop m idColumnKey) (JStr id2)) eqn:H2;
    rewrite ?prop_with_coordinates_other, ?H1, ?H2 by done; try done.
  apply strict_eq_JStr in H1, H2. congruence.
Qed.

Lemma updateMonopileCoordinates_commute_witness :
  updateMonopileCoordinates
    (updateMonopileCoordinates duplicateRows "id" "A1" 52 4) "id" "A2" 53 5
  = updateMonopileCoordinates
      (updateMonopileCoordinates duplicateRows "id" "A2" 53 5) "id" "A1" 52 4.
Proof.
  apply (updateMonopileCoordinates_commute duplicateRows "id" "A1" "A2" 52 4 53 5); done.
Defined.

(** X4: after a manual placement with non-zero coordinates, every row that
    carries the identifier is drawn: the point collection built from the
    updated rows, and so the point source loaded from them, holds its feature
    at [[lng, lat]], with the other fields of the row as properties. *)
Theorem placed_row_is_drawn
    (Camera : Type) (cameraFitting : list (list JSValue) → Camera → Camera)
    (m : MapState Camera) (style : MonopileStyle)
    (monopiles : list Monopile) (idColumnKey id : string) (lat lng : float)
    (i : nat) (row : Monopile) :
  monopiles !! i = Some row →
  prop row idColumnKey = JStr id →
  truthy (JNum lat) = true → truthy (JNum lng) = true →
  let placed := updateMonopileCoordinates monopiles idColumnKey id lat lng in
  ∃ feature props,
    feature ∈ features (createGeoJsonFromMonopiles placed idColumnKey)
    ∧ getSource (addMonopiles cameraFitting m placed idColumnKey style) "monopile-data"
      = Some (createGeoJsonFromMonopiles placed idColumnKey)
    ∧ geometry feature = Some {| type := "Point"; coordinates := Some [JNum lng; JNum lat] |}
    ∧ properties feature = Some props
    ∧ ∀ k v, k ≠ "lat" → k ≠ "lng" → row !! k = Some v → props !! k = Some v.
Proof.
  intros Hrow Hid Hlat Hlng placed.
  set (placedRow := with_coordinates (JNum lat) (JNum lng) row).
  assert (Hin : placedRow ∈ placed).
  { apply list_elem_of_lookup. exists i. unfold placed, updateMonopileCoordinates.
    rewrite lookup_List_map, Hrow. simpl.
    by rewrite (proj2 (strict_eq_JStr _ _) Hid). }
  assert (Hcoords : hasCoordinates placedRow = true).
  { unfold hasCoordinates, prop, placedRow.
    rewrite with_coordinates_lat, with_coordinates_lng. simpl.
    simpl in Hlat, Hlng. by rewrite Hlat, Hlng. }
  exists (monopileFeature idColumnKey placedRow), (placedRow ∪ {[ "id" := prop placedRow idColumnKey ]}).
  split; [| split; [| split; [| split]]].
  - apply monopileFeatures_elem. by exists placedRow.
  - apply addMonopiles_source.
  - unfold monopileFeature, prop, placedRow. simpl.
    by rewrite with_coordinates_lat, with_coordinates_lng.
  - done.
  - intros k v ? ? Hk. apply lookup_union_Some_l.
    unfold placedRow. by rewrite with_coordinates_other.
Qed.

Lemma placed_row_is_drawn_witness :
  ∃ feature props,
    feature ∈ features (createGeoJsonFromMonopiles
                          (updateMonopileCoordinates sampleRows "id" "A2" 53 5) "id")
    ∧ getSource (addMonopiles (λ _ c, c) filteredWidget
                   (updateMonopileCoordinates sampleRows "id" "A2" 53 5) "id"
                   {| color := "#f97316"; size := 6; borderColor := "#ffffff";
                      borderWidth := 1 |})
        "monopile-data"
      = Some (createGeoJsonFromMonopiles
                (updateMonopileCoordinates sampleRows "id" "A2" 53 5) "id")
    ∧ geometry feature = Some {| type := "Point"; coordinates := Some [JNum 5; JNum 53] |}
    ∧ properties feature = Some props
    ∧ ∀ k v, k ≠ "lat" → k ≠ "lng" → rowA2 !! k = Some v → props !! k = Some v.
Proof.
  apply (placed_row_is_drawn _ (λ _ c, c) filteredWidget
           {| color := "#f97316"; size := 6; borderColor := "#ffffff"; borderWidth := 1 |}
           sampleRows "id" "A2" 53 5 1 rowA2); reflexivity.
Defined.

(** ** Rows to GeoJSON and back *)

Lemma mapThrowing_total {A B : Type} (f : A → result B) (g : A → B) (xs : list A) :
  (∀ x, x ∈ xs → f x = Ok (g x)) → mapThrowing f xs = Ok (List.map g xs).
Proof.
  induction xs as [| x xs IH]; intros Hall; simpl; [done |].
  rewrite (Hall x) by left. rewrite IH; [done |].
  intros y Hy. apply Hall. by right.
Qed.

Lemma mapThrowing_map_total {A B C : Type} (f : B → result C) (h : A → B) (g : A → C)
    (xs : list A) :
  (∀ x, x ∈ xs → f (h x) = Ok (g x)) →
  mapThrowing f (List.map h xs) = Ok (List.map g xs).
Proof.
  induction xs as [| x xs IH]; intros Hall; simpl; [done |].
  rewrite (Hall x) by left. rewrite IH; [done |].
  intros y Hy. apply Hall. by right.
Qed.

Lemma filter_all {A : Type} (p : A → bool) (xs : list A) :
  (∀ x, x ∈ xs → p x = true) → List.filter p xs = xs.
Proof.
  induction xs as [| x xs IH]; intros Hall; simpl; [done |].
  rewrite (Hall x) by left. f_equal. apply IH. intros y Hy. apply Hall. by right.
Qed.

Lemma truthy_prop_lookup (row : Monopile) (k : string) :
  truthy (prop row k) = true → row !! k = Some (prop row k).
Proof. unfold prop. by destruct (row !! k). Qed.

Lemma linkedPoint_monopileFeature (k k' : string) (row : Monopile) :
  hasCoordinates row = true →
  linkedPoint k' (monopileFeature k row) = Ok (row ∪ {[ "id" := prop row k ]}).
Proof.
  intros Hc. apply hasCoordinates_iff in Hc as [Hlat Hlng].
  apply truthy_prop_lookup in Hlat, Hlng.
  unfold linkedPoint, monopileFeature. simpl. f_equal.
  set (props := row ∪ {[ "id" := prop row k ]}).
  assert (Hid : is_Some (props !! "id")).
  { unfold props. destruct (row !! "id") as [v |] eqn:Hv.
    - exists v. by apply lookup_union_Some_l.
    - eexists. rewrite lookup_union_r by done. apply lookup_singleton_eq. }
  destruct Hid as [v Hv].
  assert (Hunion : props ∪ {[ "id" := js_or (prop props k') (JStr "unknown") ]} = props).
  { apply map_eq. intros j. destruct (decide (j = "id")) as [-> | Hj].
    - rewrite Hv. by apply lookup_union_Some_l.
    - rewrite lookup_union_l; [done |]. by rewrite lookup_singleton_ne. }
  rewrite Hunion. apply with_coordinates_fixed. split.
  - unfold props. by apply lookup_union_Some_l.
  - unfold props. by apply lookup_union_Some_l.
Qed.


(** ** Linking, end to end *)

Lemma linkedPoint_linkedPointOf (idColumnKey : string) (feature : Feature) :
  wellFormedPoint feature →
  linkedPoint idColumnKey feature = Ok (linkedPointOf idColumnKey feature).
Proof.
  intros [coords [Hc Hlen]]. unfold linkedPointOf. rewrite Hc. simpl.
  by apply linkedPoint_well_formed.
Qed.

Lemma extract_well_formed (geojson : FeatureCollection) (idColumnKey : string) :
  Forall wellFormedPoint (List.filter isPointFeature (features geojson)) →
  extractMonopilesFromGeoJson geojson idColumnKey
  = Ok (List.map (linkedPointOf idColumnKey)
          (List.filter isPointFeature (features geojson))).
Proof.
  intros Hwf. unfold extractMonopilesFromGeoJson.
  apply mapThrowing_total. intros f Hf.
  apply linkedPoint_linkedPointOf. by eapply Forall_forall in Hwf.
Qed.

Lemma prop_linkedPointOf (idColumnKey : string) (feature : Feature) :
  idColumnKey ≠ "id" → idColumnKey ≠ "lat" → idColumnKey ≠ "lng" →
  prop (linkedPointOf idColumnKey feature) idColumnKey
  = prop (default ∅ (properties feature)) idColumnKey.
Proof.
  intros Hid Hlat Hlng. unfold linkedPointOf, linkedPointShape.
  rewrite prop_with_coordinates_other by done.
  unfold prop at 1. rewrite lookup_union_l; [done |].
  by rewrite lookup_singleton_ne.
Qed.

Lemma linkedPointOf_coordinates (idColumnKey : string) (feature : Feature)
    (coords : list JSValue) :
  geometry feature ≫= coordinates = Some coords →
  prop (linkedPointOf idColumnKey feature) "lat" = default JUndefined (coords !! 1%nat)
  ∧ prop (linkedPointOf idColumnKey feature) "lng" = default JUndefined (coords !! 0%nat).
Proof.
  intros Hc. unfold linkedPointOf, linkedPointShape, prop. rewrite Hc. simpl.
  by rewrite with_coordinates_lat, with_coordinates_lng.
Qed.

(** X6: linking end to end.  When the extraction does not throw, a table
    row receives [lat = coordinates[1]] and [lng = coordinates[0]] of the
    first Point feature, in feature order, whose property under the
    identifier key strictly equals the row's identifier value; features of
    another geometry are passed over even when they carry that value. (The
    key is none of [id], [lat], [lng], which the linked point overrides.) *)
Theorem linking_takes_first_matching_point
    (geojson : FeatureCollection) (key : string) (rows : list Monopile)
    (i : nat) (row : Monopile) (before after : list Feature) (f : Feature)
    (coords : list JSValue) :
  key ≠ "id" → key ≠ "lat" → key ≠ "lng" →
  rows !! i = Some row →
  Forall wellFormedPoint (List.filter isPointFeature (features geojson)) →
  List.filter isPointFeature (features geojson) = (before ++ f :: after)%list →
  (∀ g, g ∈ before →
     strict_eq (prop (default ∅ (properties g)) key) (prop row key) = false) →
  strict_eq (prop (default ∅ (properties f)) key) (prop row key) = true →
  geometry f ≫= coordinates = Some coords →
  ∃ monopiles,
    extractMonopilesFromGeoJson geojson key = Ok monopiles
    ∧ mergeCoordinates rows monopiles key !! i
      = Some (with_coordinates (default JUndefined (coords !! 1%nat))
                (default JUndefined (coords !! 0%nat)) row).
Proof.
  intros Hid Hlat Hlng Hrow Hwf Hpoints Hbefore Hf Hc.
  eexists. split; [by apply extract_well_formed |].
  rewrite Hpoints, List.map_app. simpl.
  unfold mergeCoordinates. rewrite lookup_List_map, Hrow. simpl. f_equal.
  unfold mergeRow. rewrite (find_first_match _ _ _ (linkedPointOf key f)).
  - by destruct (linkedPointOf_coordinates key f coords Hc) as [-> ->].
  - intros m Hm. apply list_elem_of_In, List.in_map_iff in Hm as [g [<- Hg]].
    rewrite prop_linkedPointOf by done. apply Hbefore. by apply list_elem_of_In.
  - by rewrite prop_linkedPointOf.
Qed.

Lemma linking_takes_first_matching_point_witness :
  ∃ monopiles,
    extractMonopilesFromGeoJson linkingCollection "name" = Ok monopiles
    ∧ mergeCoordinates sampleRows monopiles "name" !! 0%nat
      = Some (with_coordinates (default JUndefined ([JNum 4.5; JNum 52.25] !! 1%nat))
                (default JUndefined ([JNum 4.5; JNum 52.25] !! 0%nat)) rowA1).
Proof.
  apply (linking_takes_first_matching_point linkingCollection "name" sampleRows 0 rowA1
           [namedPoint "Bar" 5 53] [namedPoint "Foo" 20 10] (namedPoint "Foo" 4.5 52.25)
           [JNum 4.5; JNum 52.25]); try done.
  - repeat constructor; eexists; (split; [reflexivity | simpl; lia]).
  - intros g Hg. apply list_elem_of_singleton in Hg as ->. reflexivity.
Defined.

(** X7: when the extraction does not throw (every Point has at least two
    coordinates) and the identifier key is none of [id], [lat], [lng], which
    the linked point overrides, a table row whose identifier value is carried
    by no Point feature comes out of linking unchanged, whatever the features
    of another geometry carry. *)
Theorem linking_without_point_keeps_row
    (geojson : FeatureCollection) (key : string) (rows : list Monopile)
    (i : nat) (row : Monopile) :
  key ≠ "id" → key ≠ "lat" → key ≠ "lng" →
  rows !! i = Some row →
  Forall wellFormedPoint (List.filter isPointFeature (features geojson)) →
  (∀ g, g ∈ features geojson → isPointFeature g = true →
     strict_eq (prop (default ∅ (properties g)) key) (prop row key) = false) →
  ∃ monopiles,
    extractMonopilesFromGeoJson geojson key = Ok monopiles
    ∧ mergeCoordinates rows monopiles key !! i = Some row.
Proof.
  intros Hid Hlat Hlng Hrow Hwf Hnone.
  eexists. split; [by apply extract_well_formed |].
  unfold mergeCoordinates. rewrite lookup_List_map, Hrow. simpl. f_equal.
  apply mergeRow_no_match. intros m Hm.
  apply list_elem_of_In, List.in_map_iff in Hm as [g [<- Hg]].
  apply List.filter_In in Hg as [Hg Hpoint].
  rewrite prop_linkedPointOf by done. apply Hnone; [by apply list_elem_of_In | done].
Qed.

Lemma linking_without_point_keeps_row_witness :
  ∃ monopiles,
    extractMonopilesFromGeoJson linkingCollection "name" = Ok monopiles
    ∧ mergeCoordinates [rowA2bis] monopiles "name" !! 0%nat = Some rowA2bis.
Proof.
  apply (linking_without_point_keeps_row linkingCollection "name" [rowA2bis] 0 rowA2bis);
    try done.
  - repeat constructor; eexists; (split; [reflexivity | simpl; lia]).
  - intros g Hg Hpoint. unfold linkingCollection in Hg. simpl in Hg.
    rewrite !elem_of_cons, elem_of_nil in Hg.
    destruct Hg as [-> | [-> | [-> | [-> | []]]]]; reflexivity.
Defined.

Lemma mergeRow_again (monopiles : list Monopile) (key : string) (row : Monopile) :
  key ≠ "lat" → key ≠ "lng" →
  mergeRow monopiles key (mergeRow monopiles key row) = mergeRow monopiles key row.
Proof.
  intros Hlat Hlng. unfold mergeRow at 2.
  destruct (List.find _ monopiles) as [matched |] eqn:Hfind.
  - unfold mergeRow. rewrite prop_with_coordinates_other by done.
    rewrite Hfind. apply with_coordinates_again.
  - unfold mergeRow. by rewrite Hfind.
Qed.

(** X8: linking is idempotent: merging the same linked points a second time
    changes nothing (the identifier column not being a coordinate column),
    and merging no linked point at all returns the rows as they are. *)
Theorem mergeCoordinates_idempotent
    (rows monopiles : list Monopile) (key : string) :
  key ≠ "lat" → key ≠ "lng" →
  mergeCoordinates (mergeCoordinates rows monopiles key) monopiles key
  = mergeCoordinates rows monopiles key
  ∧ mergeCoordinates rows [] key = rows.
Proof.
  intros Hlat Hlng. unfold mergeCoordinates. split.
  - rewrite List.map_map. apply List.map_ext. intros row. by apply mergeRow_again.
  - apply List.map_id.
Qed.

Lemma mergeCoordinates_idempotent_witness :
  mergeCoordinates (mergeCoordinates sampleRows collidingPoints "id") collidingPoints "id"
  = mergeCoordinates sampleRows collidingPoints "id"
  ∧ mergeCoordinates sampleRows [] "id" = sampleRows.
Proof.
  apply (mergeCoordinates_idempotent sampleRows collidingPoints "id"); done.
Defined.

(** X9: the two identifier columns can be chosen in either order.  On a
    page with rows and a GeoJSON collection where neither column is chosen
    yet, choosing the table column and then the GeoJSON column leads to the
    same page state (or the same exception) as choosing them the other way
    round. *)
Theorem linking_order_independent
    (st : IndexState) (key : string) (geojson : FeatureCollection) :
  key ≠ "" →
  geoJsonData st = Some geojson →
  rows (tableData st) ≠ [] →
  idColumnKey (tableData st) ≠ Some key →
  geoJsonIdColumn st ≠ Some key →
  (handleIdColumnSelect st key ≫= λ st1, handleGeoJsonIdColumnSelect st1 (Some key))
  = (handleGeoJsonIdColumnSelect st (Some key) ≫= λ st1, handleIdColumnSelect st1 key).
Proof.
  intros Hkey Hgeo Hrows Hid Hcol.
  assert (H1 : handleIdColumnSelect st key
               = Ok (setTableData (setIdColumnKey (Some key)) st)).
  { unfold handleIdColumnSelect. rewrite Hgeo.
    by rewrite (bool_decide_eq_false_2 _ Hcol). }
  assert (H2 : handleGeoJsonIdColumnSelect st (Some key)
               = Ok (setGeoJsonIdColumn (Some key) st)).
  { unfold handleGeoJsonIdColumnSelect. simpl.
    rewrite (bool_decide_eq_false_2 _ Hkey).
    by rewrite (bool_decide_eq_false_2 _ Hid). }
  rewrite H1, H2. unfold mbind, result_bind.
  unfold handleIdColumnSelect, handleGeoJsonIdColumnSelect. simpl.
  rewrite Hgeo, (bool_decide_eq_false_2 _ Hkey).
  rewrite !bool_decide_eq_true_2 by done.
  destruct (rows (tableData st)) as [| r rs] eqn:Hr; [done |]. simpl.
  by destruct (extractMonopilesFromGeoJson geojson key).
Qed.

Lemma linking_order_independent_witness :
  (handleIdColumnSelect loadedState "name"
     ≫= λ st1, handleGeoJsonIdColumnSelect st1 (Some "name"))
  = (handleGeoJsonIdColumnSelect loadedState (Some "name")
       ≫= λ st1, handleIdColumnSelect st1 "name").
Proof.
  apply (linking_order_independent loadedState "name" linkingCollection); done.
Defined.

(** ** Search, composed *)

Lemma lower_ascii_idempotent (c : ascii) : lower_ascii (lower_ascii c) = lower_ascii c.
Proof. by destruct c as [[] [] [] [] [] [] [] []]. Qed.

Lemma toLowerCase_idempotent (s : string) : toLowerCase (toLowerCase s) = toLowerCase s.
Proof.
  induction s as [| c s IH]; simpl; [done |].
  by rewrite lower_ascii_idempotent, IH.
Qed.

Lemma toLowerCase_empty (s : string) : toLowerCase s = "" ↔ s = "".
Proof. by destruct s. Qed.

Lemma string_app_cons (c : ascii) (a b : string) : String c a ++ b = String c (a ++ b).
Proof. reflexivity. Qed.

Lemma string_app_nil (a : string) : "" ++ a = a.
Proof. reflexivity. Qed.

Lemma prefix_iff (q s : string) :
  String.prefix q s = true ↔ ∃ post, s = q ++ post.
Proof.
  revert s. induction q as [| a q IH]; intros s; simpl.
  - destruct s; (split; [intros _; by eexists | done]).
  - destruct s as [| b s]; simpl.
    + split; [done |]. intros [post Hpost]. by rewrite string_app_cons in Hpost.
    + destruct (ascii_dec a b) as [-> | Hne].
      * rewrite IH. split; intros [post Hpost]; exists post.
        -- by rewrite string_app_cons, <- Hpost.
        -- rewrite string_app_cons in Hpost. congruence.
      * split; [done |]. intros [post Hpost].
        rewrite string_app_cons in Hpost. congruence.
Qed.

Lemma includes_iff (s q : string) :
  includes s q = true ↔ ∃ pre post, s = pre ++ q ++ post.
Proof.
  induction s as [| c s IH].
  - change (includes "" q) with (String.prefix q "" || false).
    rewrite orb_false_r, prefix_iff. split.
    + intros [post Hpost]. by exists "", post.
    + intros [pre [post Hs]]. destruct pre as [| c pre].
      * by exists post.
      * by rewrite string_app_cons in Hs.
  - change (includes (String c s) q) with (String.prefix q (String c s) || includes s q).
    rewrite orb_true_iff, prefix_iff, IH. split.
    + intros [[post Hpost] | [pre [post Hs]]].
      * by exists "", post.
      * exists (String c pre), post. by rewrite string_app_cons, Hs.
    + intros [[| c' pre] [post Hs]].
      * left. by exists post.
      * right. exists pre, post. rewrite string_app_cons in Hs. congruence.
Qed.

Lemma string_app_assoc (a b c : string) : (a ++ b) ++ c = a ++ (b ++ c).
Proof.
  induction a as [| x a IH]; [done |].
  by rewrite !string_app_cons, IH.
Qed.

Lemma includes_trans (s q r : string) :
  includes s q = true → includes q r = true → includes s r = true.
Proof.
  rewrite !includes_iff. intros [pre [post ->]] [pre' [post' ->]].
  exists (pre ++ pre'), (post' ++ post).
  by rewrite !string_app_assoc.
Qed.

Lemma filter_bool_sublist_impl {A : Type} (p q : A → bool) (l : list A) :
  (∀ x, p x = true → q x = true) → sublist (List.filter p l) (List.filter q l).
Proof.
  intros Himpl. induction l as [| x l IH]; simpl; [constructor |].
  destruct (p x) eqn:Hp.
  - rewrite (Himpl x Hp). by constructor.
  - destruct (q x); [by constructor | done].
Qed.

Lemma filter_bool_commute {A : Type} (p q : A → bool) (l : list A) :
  List.filter p (List.filter q l) = List.filter q (List.filter p l).
Proof.
  induction l as [| x l IH]; simpl; [done |].
  destruct (p x) eqn:Hp, (q x) eqn:Hq; simpl; rewrite ?Hp, ?Hq, IH; done.
Qed.

Lemma sameValueZero_refl (v : JSValue) : sameValueZero v v = true.
Proof.
  destruct v as [| | b | n | s]; simpl; try done.
  - by destruct b.
  - unfold PrimFloat.is_nan. by destruct (PrimFloat.eqb n n).
  - by apply bool_decide_eq_true_2.
Qed.

Section SearchComposition.

Variable Number_toString : float → string.

Local Abbreviation search := (filterMonopiles Number_toString).
Local Abbreviation hit := (matchesQuery Number_toString).

Lemma matchesQuery_narrows (idColumnKey q r : string) (row : Monopile) :
  includes q r = true → hit idColumnKey q row = true → hit idColumnKey r row = true.
Proof.
  intros Hqr. unfold matchesQuery.
  destruct (negb (bool_decide (idColumnKey = ""))
            && includes (toLowerCase (ToString Number_toString (prop row idColumnKey))) q)
    eqn:Hid.
  - apply andb_true_iff in Hid as [Hkey Hinc].
    by rewrite Hkey, (includes_trans _ _ _ Hinc Hqr).
  - intros Hex. apply existsb_exists in Hex as [key [Hkey Hinc]].
    destruct (negb (bool_decide (idColumnKey = ""))
              && includes (toLowerCase (ToString Number_toString (prop row idColumnKey))) r);
      [done |].
    apply existsb_exists. exists key. split; [done |].
    by apply (includes_trans _ _ _ Hinc).
Qed.

Lemma searchEffect_frame (st : IndexState) :
  tableData (searchEffect Number_toString st) = tableData st
  ∧ searchQuery (searchEffect Number_toString st) = searchQuery st.
Proof.
  unfold searchEffect.
  destruct (nonEmpty (idColumnKey (tableData st))); [| done].
  by destruct (bool_decide (searchQuery st = "")).
Qed.

(** X11: refining the query narrows the result.  For two queries of ASCII
    characters, when the lowercased [q1] occurs inside the lowercased [q2],
    the rows selected by [q2] form a sub-sequence of the rows selected by
    [q1], whatever the rows hold.  (Beyond ASCII the built-in folding of a
    letter can depend on its neighbours, which [toLowerCase] here does not
    follow.) *)
Theorem filterMonopiles_refine
    (monopiles : list Monopile) (q1 q2 idColumnKey : string) :
  isASCII q1 = true → isASCII q2 = true →
  includes (toLowerCase q2) (toLowerCase q1) = true →
  sublist (search monopiles q2 idColumnKey) (search monopiles q1 idColumnKey).
Proof.
  intros _ _ Hinc.
  destruct (decide (q1 = "")) as [-> | H1]; [apply filterMonopiles_sublist |].
  assert (H2 : q2 ≠ "").
  { intros ->. change (String.prefix (toLowerCase q1) "" || false = true) in Hinc.
    rewrite orb_false_r in Hinc.
    apply prefix_iff in Hinc as [post Hpost].
    apply H1, toLowerCase_empty. by destruct (toLowerCase q1). }
  unfold filterMonopiles. rewrite !bool_decide_eq_false_2 by done.
  apply filter_bool_sublist_impl. intros row. by apply matchesQuery_narrows.
Qed.

(** X12: searches commute: filtering by one query and then by another
    selects the same rows, in the same order, as filtering in the opposite
    order. *)
Theorem filterMonopiles_commute
    (monopiles : list Monopile) (q1 q2 idColumnKey : string) :
  filterMonopiles Number_toString
    (filterMonopiles Number_toString monopiles q1 idColumnKey) q2 idColumnKey
  = filterMonopiles Number_toString
      (filterMonopiles Number_toString monopiles q2 idColumnKey) q1 idColumnKey.
Proof.
  unfold filterMonopiles.
  destruct (bool_decide (q1 = "")), (bool_decide (q2 = "")); try done.
  apply filter_bool_commute.
Qed.

(** X13: a row that has no value under the identifier column is rendered
    as [undefined] there, so it is selected by every query that occurs in
    the word [undefined], whatever its other fields hold. *)
Theorem filterMonopiles_missing_identifier
    (monopiles : list Monopile) (q idColumnKey : string) (row : Monopile) :
  idColumnKey ≠ "" →
  row ∈ monopiles →
  row !! idColumnKey = None →
  includes "undefined" (toLowerCase q) = true →
  row ∈ search monopiles q idColumnKey.
Proof.
  intros Hkey Hrow Hnone Hq. unfold filterMonopiles.
  case_bool_decide; [done |].
  apply list_elem_of_In, List.filter_In. split; [by apply list_elem_of_In |].
  unfold matchesQuery, prop. rewrite Hnone.
  change (toLowerCase (ToString Number_toString (default JUndefined None)))
    with "undefined".
  by rewrite (bool_decide_eq_false_2 _ Hkey), Hq.
Qed.


End SearchComposition.

Lemma filterMonopiles_refine_witness :
  sublist (filterMonopiles renderingNaN sampleRows "Foo" "id")
    (filterMonopiles renderingNaN sampleRows "o" "id").
Proof.
  apply (filterMonopiles_refine renderingNaN sampleRows "o" "Foo" "id"); reflexivity.
Defined.

Lemma filterMonopiles_missing_identifier_witness :
  rowA2 ∈ filterMonopiles renderingNaN sampleRows "Undef" "code".
Proof.
  apply (filterMonopiles_missing_identifier renderingNaN sampleRows "Undef" "code" rowA2);
    try done.
  right. left.
Defined.


(** ** The map widget, composed *)

Lemma withFilter_withFilter (f g : option FilterExpr) (layer : Layer) :
  withFilter f (withFilter g layer) = withFilter f layer.
Proof. done. Qed.

Lemma withPaint_withFilter (name : string) (value : JSValue) (f : option FilterExpr)
    (layer : Layer) :
  withPaint name value (withFilter f layer) = withFilter f (withPaint name value layer).
Proof. done. Qed.

Ltac layer_lookups :=
  apply map_eq; intros ?; rewrite ?lookup_alter, ?lookup_insert, ?lookup_delete;
  repeat (case_decide; simplify_eq; rewrite ?lookup_alter, ?lookup_insert, ?lookup_delete);
  try done.

Ltac map_lookups :=
  repeat first
    [ rewrite lookup_alter_eq | rewrite lookup_alter_ne by done
    | rewrite lookup_insert_eq | rewrite lookup_insert_ne by done
    | rewrite lookup_delete_eq | rewrite lookup_delete_ne by done
    | rewrite lookup_singleton_eq | rewrite lookup_singleton_ne by done ].

Lemma monopile_paint (style style' : MonopileStyle) :
  <["circle-stroke-width" := JNum (borderWidth style')]>
    (<["circle-stroke-color" := JStr (borderColor style')]>
       (<["circle-radius" := JNum (size style')]>
          (<["circle-color" := JStr (color style')]>
             ({[ "circle-color" := JStr (color style);
                 "circle-radius" := JNum (size style);
                 "circle-stroke-color" := JStr (borderColor style);
                 "circle-stroke-width" := JNum (borderWidth style) ]}
              : gmap string JSValue))))
  = {[ "circle-color" := JStr (color style');
       "circle-radius" := JNum (size style');
       "circle-stroke-color" := JStr (borderColor style');
       "circle-stroke-width" := JNum (borderWidth style') ]}.
Proof.
  apply map_eq. intros k.
  destruct (decide (k = "circle-stroke-width")) as [-> | ?]; [by map_lookups |].
  destruct (decide (k = "circle-stroke-color")) as [-> | ?]; [by map_lookups |].
  destruct (decide (k = "circle-radius")) as [-> | ?]; [by map_lookups |].
  destruct (decide (k = "circle-color")) as [-> | ?]; [by map_lookups |].
  by map_lookups.
Qed.

Section MapComposition.

Variable Camera : Type.
Variable cameraFitting : list (list JSValue) → Camera → Camera.

Lemma MapState_eq (m m' : MapState Camera) :
  sources m = sources m' → layers m = layers m' → camera m = camera m' → m = m'.
Proof. destruct m, m'. simpl. by intros -> -> ->. Qed.

Lemma setFilter_if_present (id : string) (f : option FilterExpr) (m : MapState Camera) :
  (if present (getLayer m id) then setFilter id f m else m) = setFilter id f m.
Proof.
  unfold getLayer. destruct (layers m !! id) eqn:Hl; simpl; [done |].
  apply MapState_eq; simpl; try done. by rewrite alter_absent.
Qed.

Lemma setOverlayFilter_if_present (id propertyKey : string) (v : JSValue)
    (vs : list JSValue) (m : MapState Camera) :
  (if present (getLayer m id) then
     match baseFilter id with
     | Some base => setFilter id (Some (All base (InProperty propertyKey (v :: vs)))) m
     | None => setFilter id (Some (InProperty propertyKey (v :: vs))) m
     end
   else m)
  = setFilter id (overlayFilter id propertyKey (v :: vs)) m.
Proof.
  unfold overlayFilter. destruct (baseFilter id); apply setFilter_if_present.
Qed.

Lemma filterGeoJsonByProperty_closed (m : MapState Camera) (propertyKey : string)
    (propertyValues : list JSValue) :
  filterGeoJsonByProperty m propertyKey propertyValues
  = if present (getSource m "geojson-data") then
      setFilter "geojson-point-layer"
        (overlayFilter "geojson-point-layer" propertyKey propertyValues)
        (setFilter "geojson-line-layer"
           (overlayFilter "geojson-line-layer" propertyKey propertyValues)
           (setFilter "geojson-fill-layer"
              (overlayFilter "geojson-fill-layer" propertyKey propertyValues) m))
    else m.
Proof.
  unfold filterGeoJsonByProperty.
  destruct (present (getSource m "geojson-data")); [| done].
  unfold geoJsonLayerIds.
  destruct propertyValues as [| v vs]; cbn [foldl].
  - by rewrite !setFilter_if_present.
  - by rewrite !setOverlayFilter_if_present.
Qed.

(** X15: filters do not pile up.  On the point layer and on the overlay
    alike, applying a filter for one identifier set and then for another
    leaves the widget exactly as applying the second alone: the last call
    wins, and an empty second set undoes the first. *)
Theorem filters_last_call_wins
    (m : MapState Camera) (ids ids' : list JSValue) (key key' : string) :
  filterMonopilesByIds (filterMonopilesByIds m ids key) ids' key'
  = filterMonopilesByIds m ids' key'
  ∧ filterGeoJsonByProperty (filterGeoJsonByProperty m key ids) key' ids'
    = filterGeoJsonByProperty m key' ids'.
Proof.
  split.
  - unfold filterMonopilesByIds.
    destruct (present (getSource m "monopile-data")) eqn:Hsrc; [| by rewrite Hsrc].
    assert (Hkeep : ∀ f, present (getSource (setFilter "monopile-layer" f m) "monopile-data")
                         = true) by (intros f; exact Hsrc).
    destruct ids, ids'; rewrite Hkeep;
      (apply MapState_eq; simpl; [done | layer_lookups | done]);
      by destruct (layers m !! "monopile-layer").
  - rewrite (filterGeoJsonByProperty_closed m key ids),
      (filterGeoJsonByProperty_closed m key' ids').
    destruct (present (getSource m "geojson-data")) eqn:Hsrc.
    + rewrite filterGeoJsonByProperty_closed.
      unfold getSource in *. cbn [setFilter sources]. rewrite Hsrc.
      apply MapState_eq; cbn [setFilter sources layers camera]; [done | | done].
      layer_lookups;
        match goal with
        | |- context [layers m !! ?id] => by destruct (layers m !! id)
        end.
    + by rewrite filterGeoJsonByProperty_closed, Hsrc.
Qed.

Lemma delete_alter_same (f : Layer → Layer) (id : string) (ls : gmap string Layer) :
  delete id (alter f id ls) = delete id ls.
Proof. layer_lookups. Qed.

Lemma insert_alter_same (f : Layer → Layer) (id : string) (layer : Layer)
    (ls : gmap string Layer) :
  <[id := layer]> (alter f id ls) = <[id := layer]> ls.
Proof. layer_lookups. Qed.

(** X16: reloading the points discards any point filter.  Loading the
    monopile layer after a point filter was applied gives exactly the widget
    that loading gives without the filter: the reloaded layer shows all its
    features until the filter is applied again. *)
Theorem addMonopiles_discards_filter
    (m : MapState Camera) (ids : list JSValue) (key : string)
    (monopiles : list Monopile) (idColumnKey : string) (style : MonopileStyle) :
  addMonopiles cameraFitting (filterMonopilesByIds m ids key) monopiles idColumnKey style
  = addMonopiles cameraFitting m monopiles idColumnKey style
  ∧ ∃ layer,
      getLayer (addMonopiles cameraFitting m monopiles idColumnKey style) "monopile-layer"
      = Some layer
      ∧ ∀ feature, layerShows layer feature = true.
Proof.
  split.
  - unfold filterMonopilesByIds.
    destruct (present (getSource m "monopile-data")) eqn:Hsrc; [| done].
    unfold addMonopiles.
    assert (Hkeep : ∀ f, present (getSource (setFilter "monopile-layer" f m) "monopile-data")
                         = true) by (intros f; exact Hsrc).
    destruct ids; rewrite Hkeep, Hsrc;
      destruct (0 <? length (monopileFeatures monopiles idColumnKey))%nat;
      (apply MapState_eq; simpl; [done | by rewrite delete_alter_same | done]).
  - unfold addMonopiles, getLayer.
    destruct (0 <? length (monopileFeatures monopiles idColumnKey))%nat; simpl;
      rewrite lookup_insert_eq; by eexists.
Qed.

(** X17: loading the points touches nothing but the monopile source and
    layer: every other source and every other layer of the widget (the
    tiles, the overlay) is as before, and with no row that has coordinates
    the camera stays where it was. *)
Theorem addMonopiles_frame
    (m : MapState Camera) (monopiles : list Monopile) (idColumnKey : string)
    (style : MonopileStyle) :
  (∀ id, id ≠ "monopile-data" →
     getSource (addMonopiles cameraFitting m monopiles idColumnKey style) id
     = getSource m id)
  ∧ (∀ id, id ≠ "monopile-layer" →
       getLayer (addMonopiles cameraFitting m monopiles idColumnKey style) id
       = getLayer m id)
  ∧ ((∀ row, row ∈ monopiles → hasCoordinates row = false) →
       camera (addMonopiles cameraFitting m monopiles idColumnKey style) = camera m).
Proof.
  split; [| split].
  - intros id Hid. unfold addMonopiles, getSource.
    destruct (0 <? length (monopileFeatures monopiles idColumnKey))%nat;
      destruct (present (sources m !! "monopile-data")); simpl;
      rewrite lookup_insert_ne by done; by rewrite ?lookup_delete_ne.
  - intros id Hid. unfold addMonopiles, getLayer, getSource.
    destruct (0 <? length (monopileFeatures monopiles idColumnKey))%nat;
      destruct (present (sources m !! "monopile-data")); simpl;
      rewrite lookup_insert_ne by done; by rewrite ?lookup_delete_ne.
  - intros Hnone. rewrite addMonopiles_camera.
    assert (Hempty : monopileFeatures monopiles idColumnKey = []).
    { destruct (monopileFeatures monopiles idColumnKey) as [| f fs] eqn:Hf; [done |].
      assert (Hin : f ∈ monopileFeatures monopiles idColumnKey) by (rewrite Hf; left).
      apply monopileFeatures_elem in Hin as [row [Hrow [Hc _]]].
      rewrite (Hnone row Hrow) in Hc. discriminate. }
    by rewrite Hempty.
Qed.

(** X18: restyling the points after loading them gives exactly the widget
    that loading them with the new style gives: source, filter and camera
    are those of the load, and the four paint properties those of the new
    style. *)
Theorem updateMonopileStyle_after_load
    (m : MapState Camera) (monopiles : list Monopile) (idColumnKey : string)
    (style style' : MonopileStyle) :
  updateMonopileStyle (addMonopiles cameraFitting m monopiles idColumnKey style) style'
  = addMonopiles cameraFitting m monopiles idColumnKey style'.
Proof.
  unfold updateMonopileStyle.
  assert (Hsrc : present (getSource (addMonopiles cameraFitting m monopiles idColumnKey style)
                            "monopile-data") = true) by by rewrite addMonopiles_source.
  rewrite Hsrc. unfold addMonopiles.
  destruct (0 <? length (monopileFeatures monopiles idColumnKey))%nat;
    destruct (present (getSource m "monopile-data"));
    (apply MapState_eq; cbn [setPaintProperty fitBounds addLayer addSource removeSource
                              removeLayer sources layers camera]; [done | | done]);
    (apply map_eq; intros j;
     destruct (decide (j = "monopile-layer")) as [-> | ?]; [| by map_lookups];
     map_lookups; cbn [fmap option_fmap option_map];
     unfold withPaint; cbn [paint layerType source layerFilter];
     do 2 f_equal; apply monopile_paint).
Qed.

(** X19: restyling and filtering are independent.  Restyling the points
    keeps camera and sources and the type, source and filter of every layer,
    and every layer but the monopile layer as a whole; and it commutes with
    the point filter: the widget is the same whichever of the two is applied
    first. *)
Theorem updateMonopileStyle_keeps_filter
    (m : MapState Camera) (style : MonopileStyle) (ids : list JSValue) (key : string) :
  camera (updateMonopileStyle m style) = camera m
  ∧ sources (updateMonopileStyle m style) = sources m
  ∧ (∀ id, (λ layer, (layerType layer, source layer, layerFilter layer))
             <$> getLayer (updateMonopileStyle m style) id
           = (λ layer, (layerType layer, source layer, layerFilter layer))
             <$> getLayer m id)
  ∧ (∀ id, id ≠ "monopile-layer" →
       getLayer (updateMonopileStyle m style) id = getLayer m id)
  ∧ updateMonopileStyle (filterMonopilesByIds m ids key) style
    = filterMonopilesByIds (updateMonopileStyle m style) ids key.
Proof.
  split; [| split; [| split; [| split]]].
  - unfold updateMonopileStyle. by destruct (present (getSource m "monopile-data")).
  - unfold updateMonopileStyle. by destruct (present (getSource m "monopile-data")).
  - intros id. unfold updateMonopileStyle, getLayer.
    destruct (present (getSource m "monopile-data")); [| done].
    cbn [setPaintProperty layers].
    destruct (decide (id = "monopile-layer")) as [-> | ?]; map_lookups; [| done].
    by destruct (layers m !! "monopile-layer").
  - intros id Hid. unfold updateMonopileStyle, getLayer.
    destruct (present (getSource m "monopile-data")); [| done].
    cbn [setPaintProperty layers]. by map_lookups.
  - unfold updateMonopileStyle, filterMonopilesByIds.
    destruct (present (getSource m "monopile-data")) eqn:Hsrc.
    + assert (Hkeep : ∀ f, present (getSource (setFilter "monopile-layer" f m)
                                      "monopile-data") = true) by (intros f; exact Hsrc).
      destruct ids as [| v vs]; rewrite Hkeep;
        (match goal with
         | |- _ = (if present (getSource ?m' _) then _ else _) =>
             assert (Hkeep' : present (getSource m' "monopile-data") = true) by exact Hsrc;
             rewrite Hkeep'
         end);
        (apply MapState_eq; cbn [setPaintProperty setFilter sources layers camera];
         [done | | done]);
        (apply map_eq; intros lid;
         destruct (decide (lid = "monopile-layer")) as [-> | ?]; map_lookups; [| done];
         by destruct (layers m !! "monopile-layer")).
    + by rewrite Hsrc.
Qed.


(** X21: the filter effects of the map component never clear a filter.
    Whatever identifier list they are given, a layer that carries a filter
    before one of the two effects carries one after it; with an empty list
    they return before touching the widget; and with a non-empty list, a
    loaded widget that holds the points and a chosen identifier column, the
    point effect restricts the monopile layer to exactly that list. *)
Theorem filter_effects_never_clear
    (m : MapState Camera) (loaded : bool)
    (tableIdColumn geoJsonIdColumn : option string)
    (geoJsonData : option FeatureCollection) (filteredIds : list JSValue) :
  (∃ m',
     monopileFilterEffect (Some m) loaded tableIdColumn filteredIds = Some m'
     ∧ ∀ id layer, getLayer m id = Some layer → layerFilter layer ≠ None →
         ∃ layer', getLayer m' id = Some layer' ∧ layerFilter layer' ≠ None)
  ∧ (∃ m',
       geoJsonFilterEffect (Some m) loaded geoJsonData geoJsonIdColumn filteredIds
       = Some m'
       ∧ ∀ id layer, getLayer m id = Some layer → layerFilter layer ≠ None →
           ∃ layer', getLayer m' id = Some layer' ∧ layerFilter layer' ≠ None)
  ∧ monopileFilterEffect (Some m) loaded tableIdColumn [] = Some m
  ∧ geoJsonFilterEffect (Some m) loaded geoJsonData geoJsonIdColumn [] = Some m
  ∧ (∀ key id ids layer,
       loaded = true →
       nonEmpty tableIdColumn = Some key →
       present (getSource m "monopile-data") = true →
       getLayer m "monopile-layer" = Some layer →
       ∃ m',
         monopileFilterEffect (Some m) loaded tableIdColumn (id :: ids) = Some m'
         ∧ getLayer m' "monopile-layer"
           = Some (withFilter (Some (InProperty key (id :: ids))) layer)).
Proof.
  assert (Hkeep : ∀ m0 : MapState Camera, ∀ id layer,
            getLayer m0 id = Some layer → layerFilter layer ≠ None →
            ∃ layer', getLayer m0 id = Some layer' ∧ layerFilter layer' ≠ None)
    by (intros m0 id layer Hl Hf; by exists layer).
  split; [| split; [| split; [| split]]].
  - unfold monopileFilterEffect.
    destruct (nonEmpty tableIdColumn) as [key |]; [| by exists m; split; [| apply Hkeep]].
    destruct (loaded && (0 <? length filteredIds)%nat) eqn:Hgo;
      [| by exists m; split; [| apply Hkeep]].
    eexists. split; [reflexivity |].
    intros id layer Hlayer Hfilter.
    apply andb_true_iff in Hgo as [_ Hlen].
    destruct filteredIds as [| v vs]; [done |].
    unfold filterMonopilesByIds.
    destruct (present (getSource m "monopile-data")); [| by exists layer].
    unfold getLayer in *. cbn [setFilter layers].
    destruct (decide (id = "monopile-layer")) as [-> | ?].
    + rewrite lookup_alter_eq, Hlayer. by eexists.
    + rewrite lookup_alter_ne by done. by exists layer.
  - unfold geoJsonFilterEffect.
    destruct (nonEmpty geoJsonIdColumn) as [key |]; [| by exists m; split; [| apply Hkeep]].
    destruct (loaded && present geoJsonData && (0 <? length filteredIds)%nat) eqn:Hgo;
      [| by exists m; split; [| apply Hkeep]].
    eexists. split; [reflexivity |].
    intros id layer Hlayer Hfilter.
    apply andb_true_iff in Hgo as [_ Hlen].
    destruct filteredIds as [| v vs]; [done |].
    rewrite filterGeoJsonByProperty_closed.
    destruct (present (getSource m "geojson-data")); [| by exists layer].
    unfold getLayer in *. cbn [setFilter layers].
    destruct (decide (id = "geojson-point-layer")) as [-> | ?];
      [map_lookups; rewrite Hlayer; by eexists |].
    destruct (decide (id = "geojson-line-layer")) as [-> | ?];
      [map_lookups; rewrite Hlayer; by eexists |].
    destruct (decide (id = "geojson-fill-layer")) as [-> | ?];
      [map_lookups; rewrite Hlayer; by eexists |].
    map_lookups. by exists layer.
  - unfold monopileFilterEffect.
    destruct (nonEmpty tableIdColumn); [| done]. by rewrite andb_false_r.
  - unfold geoJsonFilterEffect.
    destruct (nonEmpty geoJsonIdColumn); [| done]. by rewrite andb_false_r.
  - intros key id ids layer -> Hkey Hsrc Hlayer.
    unfold monopileFilterEffect. rewrite Hkey. simpl.
    eexists. split; [reflexivity |].
    unfold filterMonopilesByIds. rewrite Hsrc.
    unfold getLayer in *. cbn [setFilter layers].
    by rewrite lookup_alter_eq, Hlayer.
Qed.

End MapComposition.

Lemma filter_effects_never_clear_witness :
  ∃ m',
    monopileFilterEffect (Some filteredWidget) true (Some "id") [JStr "MP-1"] = Some m'
    ∧ getLayer m' "monopile-layer"
      = Some (withFilter (Some (InProperty "id" [JStr "MP-1"]))
                (circleLayer (Some (InProperty "id" [JStr "MP-2"])))).
Proof.
  destruct (filter_effects_never_clear (float * float * float) filteredWidget true
              (Some "id") None None [JStr "MP-1"]) as [_ [_ [_ [_ Hrestrict]]]].
  exact (Hrestrict "id" (JStr "MP-1") []
           (circleLayer (Some (InProperty "id" [JStr "MP-2"])))
           eq_refl eq_refl eq_refl eq_refl).
Defined.


(** ** Manual placement, from the clicks *)

(** X22: the manual placement flow, for a row whose identifier cell is a
    string.  Without a GeoJSON collection, clicking the row hands its
    identifier to the page.  When the identifier is not empty, a following
    click on the map puts the clicked coordinates on that row (and on every
    row with the same identifier), leaving columns, identifier column and
    selection as they are; when it is the empty string, the map click changes
    nothing.  With a GeoJSON collection loaded, a row click selects nothing
    and a map click changes nothing, whatever was selected before. *)
Theorem manual_placement_flow
    (st : IndexState) (key id : string) (i : nat) (row : Monopile) (lat lng : float) :
  nonEmpty (idColumnKey (tableData st)) = Some key →
  rows (tableData st) !! i = Some row →
  prop row key = JStr id →
  (geoJsonData st = None →
     handleRowClick (idColumnKey (tableData st)) (present (geoJsonData st)) row
       = Some (JStr id)
     ∧ (id ≠ "" →
        let st' := mapClickListener (handleMonopileSelect st id) lat lng in
        rows (tableData st')
          = updateMonopileCoordinates (rows (tableData st)) key id lat lng
        ∧ rows (tableData st') !! i = Some (with_coordinates (JNum lat) (JNum lng) row)
        ∧ columns (tableData st') = columns (tableData st)
        ∧ idColumnKey (tableData st') = idColumnKey (tableData st)
        ∧ selectedMonopileId st' = Some id)
     ∧ (id = "" →
        mapClickListener (handleMonopileSelect st id) lat lng
        = handleMonopileSelect st id))
  ∧ (∀ geojson selected, geoJsonData st = Some geojson →
       handleRowClick (idColumnKey (tableData st)) (present (geoJsonData st)) row = None
       ∧ mapClickListener (handleMonopileSelect st selected) lat lng
         = handleMonopileSelect st selected).
Proof.
  intros Hkey Hrow Hid. split.
  - intros Hgeo. split; [| split].
    + unfold handleRowClick. by rewrite Hkey, Hgeo, Hid.
    + intros Hne.
      assert (Hsel : nonEmpty (Some id) = Some id).
      { unfold nonEmpty. by rewrite bool_decide_eq_false_2. }
      unfold mapClickListener, handleMonopileSelect, handleMapClick.
      cbn [geoJsonData selectedMonopileId tableData]. rewrite Hgeo, Hsel, Hkey.
      cbn [present orb negb setTableData setRows tableData rows columns idColumnKey
           selectedMonopileId].
      split; [done |]. split; [| done].
      unfold updateMonopileCoordinates. rewrite lookup_List_map, Hrow. simpl.
      by rewrite (proj2 (strict_eq_JStr _ _) Hid).
    + intros ->. unfold mapClickListener, handleMonopileSelect.
      cbn [geoJsonData selectedMonopileId]. by rewrite Hgeo.
  - intros geojson selected Hgeo. split.
    + unfold handleRowClick. by rewrite Hkey, Hgeo.
    + unfold mapClickListener, handleMonopileSelect.
      cbn [geoJsonData]. by rewrite Hgeo.
Qed.

Lemma manual_placement_flow_witness :
  (geoJsonData manualState = None →
     handleRowClick (idColumnKey (tableData manualState))
       (present (geoJsonData manualState)) rowA2 = Some (JStr "A2")
     ∧ ("A2" ≠ "" →
        let st' := mapClickListener (handleMonopileSelect manualState "A2") 53 5 in
        rows (tableData st')
          = updateMonopileCoordinates (rows (tableData manualState)) "id" "A2" 53 5
        ∧ rows (tableData st') !! 1%nat = Some (with_coordinates (JNum 53) (JNum 5) rowA2)
        ∧ columns (tableData st') = columns (tableData manualState)
        ∧ idColumnKey (tableData st') = idColumnKey (tableData manualState)
        ∧ selectedMonopileId st' = Some "A2")
     ∧ ("A2" = "" →
        mapClickListener (handleMonopileSelect manualState "A2") 53 5
        = handleMonopileSelect manualState "A2"))
  ∧ (∀ geojson selected, geoJsonData manualState = Some geojson →
       handleRowClick (idColumnKey (tableData manualState))
         (present (geoJsonData manualState)) rowA2 = None
       ∧ mapClickListener (handleMonopileSelect manualState selected) 53 5
         = handleMonopileSelect manualState selected).
Proof.
  apply (manual_placement_flow manualState "id" "A2" 1 rowA2 53 5); done.
Defined.

(** ** Uploads *)

Lemma recognized_default (ext : option string) :
  default "" ext ∈ ["csv"; "xlsx"; "xls"] ↔ ext ∈ [Some "csv"; Some "xlsx"; Some "xls"].
Proof.
  rewrite !elem_of_cons, !elem_of_nil.
  destruct ext as [e |]; simpl; split; intros [H | [H | [H | []]]];
    first [ discriminate | (left; congruence) | (right; left; congruence)
          | (right; right; left; congruence) ].
Qed.

Section UploadComposition.

Variable Papa_parse : File → option PapaResults.
Variable WorkSheet : Type.
Variable XLSX_read : string → WorkBook WorkSheet + string.
Variable sheet_to_json : option WorkSheet → list Monopile.

Local Abbreviation parseTable := (parseFileData Papa_parse WorkSheet XLSX_read sheet_to_json).

Lemma parseFileData_recognized (file : File) :
  fileExt file ∈ [Some "csv"; Some "xlsx"; Some "xls"] →
  parseTable file ≠ Rejected UnsupportedFileFormat.
Proof.
  intros Hin. apply fileExt_recognized_cases in Hin as [Hcsv | Hwb].
  - rewrite (parseFileData_csv _ _ _ _ file Hcsv). by destruct (Papa_parse file).
  - rewrite (parseFileData_workbook _ _ _ _ file Hwb).
    by destruct (XLSX_read (contents file)).
Qed.

(** X23: the drop handler and the parser agree on every file.  The table
    drop handler looks at the first dropped file only; it forwards that file
    exactly when the parser would not reject it as an unsupported format,
    and refuses it with a notification exactly when the parser would: a
    forwarded file never reaches the unsupported-format failure. *)
Theorem onTableDrop_agrees_with_parser (file : File) (others : list File) :
  (onTableDrop (file :: others) = DropForwarded file
   ↔ parseTable file ≠ Rejected UnsupportedFileFormat)
  ∧ (onTableDrop (file :: others)
       = DropRefused (ToastError "Please upload a CSV or Excel file")
     ↔ parseTable file = Rejected UnsupportedFileFormat)
  ∧ onTableDrop [] = DropIgnored.
Proof.
  unfold onTableDrop. cbn [head].
  destruct (decide (fileExt file ∈ [Some "csv"; Some "xlsx"; Some "xls"])) as [Hin | Hout].
  - pose proof (parseFileData_recognized file Hin) as Hok.
    rewrite bool_decide_eq_true_2 by by apply recognized_default.
    cbn [negb]. split; [done |]. split; [| done]. split; [done | by intros ?].
  - pose proof (parseFileData_other Papa_parse WorkSheet XLSX_read sheet_to_json file Hout)
      as Hbad.
    rewrite bool_decide_eq_false_2 by (intros H; by apply Hout, recognized_default).
    cbn [negb]. split; [| done]. split; [done |]. intros Hok. by destruct Hok.
Qed.

End UploadComposition.

(** ** Candidate identifier columns *)

(** X24: the identifier columns offered for a GeoJSON collection are
    exactly the properties of its FIRST feature, each with its key as label:
    a property that only later features have is never offered, and a
    collection without features, or whose first feature has no properties,
    offers none. *)
Theorem extractGeoJsonIdColumns_first_feature
    (geojson : FeatureCollection) (column : ColumnOption) :
  (column ∈ extractGeoJsonIdColumns geojson
   ↔ ∃ first others props,
       features geojson = first :: others
       ∧ properties first = Some props
       ∧ value column ∈ dom props
       ∧ label column = value column)
  ∧ (∀ first others,
       features geojson = first :: others →
       extractGeoJsonIdColumns geojson
       = extractGeoJsonIdColumns {| features := [first] |}).
Proof.
  assert (Hcolumns : ∀ props : Monopile,
    column ∈ columnsOf props ↔ value column ∈ dom props ∧ label column = value column).
  { intros props. unfold columnsOf. rewrite list_elem_of_In, List.in_map_iff. split.
    - intros [k [<- Hk]]. simpl. split; [| done].
      by apply Object_keys_dom, list_elem_of_In.
    - intros [Hdom Hlabel]. exists (value column). split.
      + destruct column as [v l]. simpl in *. by rewrite Hlabel.
      + by apply list_elem_of_In, Object_keys_dom. }
  split.
  - unfold extractGeoJsonIdColumns.
    destruct (features geojson) as [| first others]; simpl.
    + rewrite Hcolumns, dom_empty_L. split.
      * intros [Hin _]. by apply not_elem_of_empty in Hin.
      * intros [first [others [props [Hf _]]]]. discriminate.
    + destruct (properties first) as [props |] eqn:Hprops; simpl.
      * rewrite Hcolumns. split.
        -- intros [Hdom Hlabel]. by exists first, others, props.
        -- intros [f [o [p [[= <- <-] [Hp [Hdom Hlabel]]]]]].
           rewrite Hprops in Hp. by injection Hp as <-.
      * rewrite Hcolumns, dom_empty_L. split.
        -- intros [Hin _]. by apply not_elem_of_empty in Hin.
        -- intros [f [o [p [[= <- <-] [Hp _]]]]]. rewrite Hprops in Hp. discriminate.
  - intros first others Hf. unfold extractGeoJsonIdColumns. by rewrite Hf.
Qed.

(** ** The GeoJSON overlay *)

Lemma overlay_paint_fill (style style' : MapStyle.t) :
  <["fill-opacity" := JNum (MapStyle.opacity style' * 0.5)%float]>
    (<["fill-color" := JStr (MapStyle.color style')]> (paint (overlayFillLayer style)))
  = paint (overlayFillLayer style').
Proof.
  apply map_eq. intros k. unfold overlayFillLayer. cbn [paint].
  destruct (decide (k = "fill-opacity")) as [-> | ?]; [by map_lookups |].
  destruct (decide (k = "fill-color")) as [-> | ?]; [by map_lookups |].
  by map_lookups.
Qed.

Lemma overlay_paint_line (style style' : MapStyle.t) :
  <["line-opacity" := JNum (MapStyle.opacity style')]>
    (<["line-width" := JNum (MapStyle.width style')]>
       (<["line-color" := JStr (MapStyle.color style')]> (paint (overlayLineLayer style))))
  = paint (overlayLineLayer style').
Proof.
  apply map_eq. intros k. unfold overlayLineLayer. cbn [paint].
  destruct (decide (k = "line-opacity")) as [-> | ?]; [by map_lookups |].
  destruct (decide (k = "line-width")) as [-> | ?]; [by map_lookups |].
  destruct (decide (k = "line-color")) as [-> | ?]; [by map_lookups |].
  by map_lookups.
Qed.

Lemma overlay_paint_point (style style' : MapStyle.t) :
  <["circle-opacity" := JNum (MapStyle.opacity style')]>
    (<["circle-radius" := JNum (MapStyle.width style' * 2)%float]>
       (<["circle-color" := JStr (MapStyle.color style')]> (paint (overlayPointLayer style))))
  = paint (overlayPointLayer style').
Proof.
  apply map_eq. intros k. unfold overlayPointLayer. cbn [paint].
  destruct (decide (k = "circle-opacity")) as [-> | ?]; [by map_lookups |].
  destruct (decide (k = "circle-radius")) as [-> | ?]; [by map_lookups |].
  destruct (decide (k = "circle-color")) as [-> | ?]; [by map_lookups |].
  by map_lookups.
Qed.

Lemma foldlThrowing_throws {A S : Type} (f : S → A → result S) (x : A) (xs : list A) :
  x ∈ xs → (∀ s, ∃ e, f s x = Throw e) → ∀ s, ∃ e, foldlThrowing f s xs = Throw e.
Proof.
  intros Hin Hx. induction xs as [| y ys IH]; intros s.
  - by apply elem_of_nil in Hin.
  - cbn [foldlThrowing]. apply elem_of_cons in Hin as [<- | Hin].
    + destruct (Hx s) as [e ->]. by exists e.
    + destruct (f s y) as [s' | e]; [apply (IH Hin) | by exists e].
Qed.

Lemma foldlThrowing_fixed {A S : Type} (f : S → A → result S) (xs : list A) (s : S) :
  (∀ x, x ∈ xs → f s x = Ok s) → foldlThrowing f s xs = Ok s.
Proof.
  induction xs as [| y ys IH]; intros Hfix; [done |].
  cbn [foldlThrowing]. rewrite (Hfix y) by left.
  apply IH. intros x Hx. apply Hfix. by right.
Qed.

Section OverlayComposition.

Variable Camera : Type.
Variable cameraFitting : list (list JSValue) → Camera → Camera.

Lemma removeLayer_if_present (id : string) (m : MapState Camera) :
  (if present (getLayer m id) then removeLayer id m else m) = removeLayer id m.
Proof.
  unfold getLayer. destruct (layers m !! id) eqn:Hl; simpl; [done |].
  apply MapState_eq; simpl; try done. by rewrite delete_id.
Qed.

Lemma fitToOverlay_sources (geojson : OverlayCollection) (m : MapState Camera) :
  sources (fitToOverlay cameraFitting geojson m) = sources m.
Proof.
  unfold fitToOverlay. destruct (scanBounds geojson) as [scan |]; [| done].
  by destruct (hasValidFeatures scan && negb (bool_decide (bounds scan = []))).
Qed.

Lemma fitToOverlay_layers (geojson : OverlayCollection) (m : MapState Camera) :
  layers (fitToOverlay cameraFitting geojson m) = layers m.
Proof.
  unfold fitToOverlay. destruct (scanBounds geojson) as [scan |]; [| done].
  by destruct (hasValidFeatures scan && negb (bool_decide (bounds scan = []))).
Qed.

Lemma fitToOverlay_camera (geojson : OverlayCollection) (m m' : MapState Camera) :
  camera m = camera m' →
  camera (fitToOverlay cameraFitting geojson m) = camera (fitToOverlay cameraFitting geojson m').
Proof.
  intros Hc. unfold fitToOverlay. destruct (scanBounds geojson) as [scan |]; [| done].
  destruct (hasValidFeatures scan && negb (bool_decide (bounds scan = []))); [| done].
  cbn [fitBounds camera]. by rewrite Hc.
Qed.

Lemma addGeoJsonLayer_closed (m : MapState Camera) (geojson : OverlayCollection)
    (style : MapStyle.t) :
  addGeoJsonLayer cameraFitting m geojson style
  = fitToOverlay cameraFitting geojson
      {| sources := <["geojson-data" := asFeatureCollection geojson]> (sources m);
         layers :=
           <["geojson-point-layer" := overlayPointLayer style]>
             (<["geojson-line-layer" := overlayLineLayer style]>
                (<["geojson-fill-layer" := overlayFillLayer style]> (layers m)));
         camera := camera m |}.
Proof.
  unfold addGeoJsonLayer. rewrite !removeLayer_if_present. cbv zeta. f_equal.
  destruct (present (getSource m "geojson-data"));
    (apply MapState_eq;
     cbn [addLayer addSource removeSource removeLayer sources layers camera];
     [| | done]);
    try done.
  - apply map_eq. intros k.
    destruct (decide (k = "geojson-data")) as [-> | ?]; by map_lookups.
  - apply map_eq. intros k.
    destruct (decide (k = "geojson-point-layer")) as [-> | ?]; [by map_lookups |].
    destruct (decide (k = "geojson-line-layer")) as [-> | ?]; [by map_lookups |].
    destruct (decide (k = "geojson-fill-layer")) as [-> | ?]; by map_lookups.
Qed.

Lemma addGeoJsonLayer_sources (m : MapState Camera) (geojson : OverlayCollection)
    (style : MapStyle.t) :
  sources (addGeoJsonLayer cameraFitting m geojson style)
  = <["geojson-data" := asFeatureCollection geojson]> (sources m).
Proof. by rewrite addGeoJsonLayer_closed, fitToOverlay_sources. Qed.

Lemma addGeoJsonLayer_layers (m : MapState Camera) (geojson : OverlayCollection)
    (style : MapStyle.t) :
  layers (addGeoJsonLayer cameraFitting m geojson style)
  = <["geojson-point-layer" := overlayPointLayer style]>
      (<["geojson-line-layer" := overlayLineLayer style]>
         (<["geojson-fill-layer" := overlayFillLayer style]> (layers m))).
Proof. by rewrite addGeoJsonLayer_closed, fitToOverlay_layers. Qed.

Lemma addGeoJsonLayer_camera (m m' : MapState Camera) (geojson : OverlayCollection)
    (style style' : MapStyle.t) :
  camera m = camera m' →
  camera (addGeoJsonLayer cameraFitting m geojson style)
  = camera (addGeoJsonLayer cameraFitting m' geojson style').
Proof. intros Hc. rewrite !addGeoJsonLayer_closed. by apply fitToOverlay_camera. Qed.

Lemma addGeoJsonLayer_present (m : MapState Camera) (geojson : OverlayCollection)
    (style : MapStyle.t) :
  present (getSource (addGeoJsonLayer cameraFitting m geojson style) "geojson-data") = true.
Proof. unfold getSource. by rewrite addGeoJsonLayer_sources, lookup_insert_eq. Qed.

(** X25: what loading the overlay leaves behind.  Whatever the widget held
    and whatever the geometries, the overlay source holds the collection, the
    three overlay layers are those of the style with their geometry-class
    filters, every other source and layer is as before, and the camera is
    either where it was or fitted to at least one position. *)
Theorem addGeoJsonLayer_installs
    (m : MapState Camera) (geojson : OverlayCollection) (style : MapStyle.t) :
  getSource (addGeoJsonLayer cameraFitting m geojson style) "geojson-data"
  = Some (asFeatureCollection geojson)
  ∧ getLayer (addGeoJsonLayer cameraFitting m geojson style) "geojson-fill-layer"
    = Some (overlayFillLayer style)
  ∧ getLayer (addGeoJsonLayer cameraFitting m geojson style) "geojson-line-layer"
    = Some (overlayLineLayer style)
  ∧ getLayer (addGeoJsonLayer cameraFitting m geojson style) "geojson-point-layer"
    = Some (overlayPointLayer style)
  ∧ (∀ id, id ≠ "geojson-data" →
       getSource (addGeoJsonLayer cameraFitting m geojson style) id = getSource m id)
  ∧ (∀ id, id ∉ geoJsonLayerIds →
       getLayer (addGeoJsonLayer cameraFitting m geojson style) id = getLayer m id)
  ∧ (camera (addGeoJsonLayer cameraFitting m geojson style) = camera m
     ∨ ∃ position positions,
         camera (addGeoJsonLayer cameraFitting m geojson style)
         = cameraFitting (position :: positions) (camera m)).
Proof.
  unfold getSource, getLayer. rewrite addGeoJsonLayer_sources, addGeoJsonLayer_layers.
  repeat split.
  - by map_lookups.
  - by map_lookups.
  - by map_lookups.
  - by map_lookups.
  - intros id Hid. by map_lookups.
  - intros id Hid. unfold geoJsonLayerIds in Hid.
    rewrite !not_elem_of_cons in Hid. destruct Hid as (? & ? & ? & _). by map_lookups.
  - rewrite addGeoJsonLayer_closed. unfold fitToOverlay.
    destruct (scanBounds geojson) as [scan |]; [| by left].
    destruct (hasValidFeatures scan && negb (bool_decide (bounds scan = []))) eqn:Hfit;
      [| by left].
    right. cbn [fitBounds camera].
    destruct (bounds scan) as [| position positions]; [| by eexists _, _].
    by rewrite andb_comm in Hfit.
Qed.

(** X26: reloading the overlay discards any overlay filter, and clearing
    the filter of a freshly loaded overlay changes nothing.  So in the map
    component, running the overlay effect after the overlay filter effect
    leaves the widget as the overlay effect alone does. *)
Theorem addGeoJsonLayer_discards_filter
    (m : MapState Camera) (key : string) (ids : list JSValue)
    (geojson : OverlayCollection) (style : MapStyle.t)
    (current : option (MapState Camera)) (loaded : bool)
    (geoJsonData : option OverlayCollection) (geoJsonIdColumn : option string) :
  addGeoJsonLayer cameraFitting (filterGeoJsonByProperty m key ids) geojson style
  = addGeoJsonLayer cameraFitting m geojson style
  ∧ filterGeoJsonByProperty (addGeoJsonLayer cameraFitting m geojson style) key []
    = addGeoJsonLayer cameraFitting m geojson style
  ∧ geoJsonEffect cameraFitting
      (geoJsonFilterEffect current loaded (asFeatureCollection <$> geoJsonData)
         geoJsonIdColumn ids)
      loaded geoJsonData style
    = geoJsonEffect cameraFitting current loaded geoJsonData style.
Proof.
  assert (Hdiscard : ∀ m' k, addGeoJsonLayer cameraFitting (filterGeoJsonByProperty m' k ids)
                               geojson style
                             = addGeoJsonLayer cameraFitting m' geojson style).
  { intros m' k. rewrite !addGeoJsonLayer_closed, filterGeoJsonByProperty_closed.
    destruct (present (getSource m' "geojson-data")); [| done].
    f_equal. apply MapState_eq; cbn [setFilter sources layers camera]; [done | | done].
    apply map_eq. intros lid.
    destruct (decide (lid = "geojson-point-layer")) as [-> | ?]; [by map_lookups |].
    destruct (decide (lid = "geojson-line-layer")) as [-> | ?]; [by map_lookups |].
    destruct (decide (lid = "geojson-fill-layer")) as [-> | ?]; by map_lookups. }
  split; [apply Hdiscard | split].
  - rewrite filterGeoJsonByProperty_closed, addGeoJsonLayer_present.
    apply MapState_eq; cbn [setFilter sources layers camera]; [done | | done].
    rewrite addGeoJsonLayer_layers.
    apply map_eq. intros lid.
    destruct (decide (lid = "geojson-point-layer")) as [-> | ?]; [by map_lookups |].
    destruct (decide (lid = "geojson-line-layer")) as [-> | ?]; [by map_lookups |].
    destruct (decide (lid = "geojson-fill-layer")) as [-> | ?]; by map_lookups.
  - unfold geoJsonEffect, geoJsonFilterEffect.
    destruct current as [m0 |], geoJsonData as [g |], (nonEmpty geoJsonIdColumn) as [k |],
      loaded, (0 <? length ids)%nat;
      cbn [fmap option_fmap option_map present andb]; try done.
    f_equal. rewrite !addGeoJsonLayer_closed, filterGeoJsonByProperty_closed.
    destruct (present (getSource m0 "geojson-data")); [| done].
    f_equal. apply MapState_eq; cbn [setFilter sources layers camera]; [done | | done].
    apply map_eq. intros lid.
    destruct (decide (lid = "geojson-point-layer")) as [-> | ?]; [by map_lookups |].
    destruct (decide (lid = "geojson-line-layer")) as [-> | ?]; [by map_lookups |].
    destruct (decide (lid = "geojson-fill-layer")) as [-> | ?]; by map_lookups.
Qed.

(** X27: restyling the overlay after loading it gives exactly the widget
    that loading it with the new style gives.  So in the map component, where
    a style change runs the overlay effect and then the overlay style effect,
    the second changes nothing. *)
Theorem updateGeoJsonStyle_after_load
    (m : MapState Camera) (geojson : OverlayCollection) (style style' : MapStyle.t)
    (current : option (MapState Camera)) (loaded : bool)
    (geoJsonData : option OverlayCollection) :
  updateGeoJsonStyle (addGeoJsonLayer cameraFitting m geojson style) style'
  = addGeoJsonLayer cameraFitting m geojson style'
  ∧ geoJsonStyleEffect (geoJsonEffect cameraFitting current loaded geoJsonData style')
      loaded geoJsonData style'
    = geoJsonEffect cameraFitting current loaded geoJsonData style'.
Proof.
  assert (Hrestyle : ∀ m' g s, updateGeoJsonStyle (addGeoJsonLayer cameraFitting m' g s) style'
                               = addGeoJsonLayer cameraFitting m' g style').
  { intros m' g s. unfold updateGeoJsonStyle. rewrite addGeoJsonLayer_present. cbv zeta.
    apply MapState_eq; cbn [setPaintProperty sources layers camera].
    - by rewrite !addGeoJsonLayer_sources.
    - rewrite !addGeoJsonLayer_layers.
      apply map_eq. intros lid.
      destruct (decide (lid = "geojson-point-layer")) as [-> | ?].
      { map_lookups. cbn [fmap option_fmap option_map]. unfold withPaint at 1 2 3.
        cbn [paint layerType source layerFilter withPaint].
        rewrite overlay_paint_point. done. }
      destruct (decide (lid = "geojson-line-layer")) as [-> | ?].
      { map_lookups. cbn [fmap option_fmap option_map]. unfold withPaint at 1 2 3.
        cbn [paint layerType source layerFilter withPaint].
        rewrite overlay_paint_line. done. }
      destruct (decide (lid = "geojson-fill-layer")) as [-> | ?].
      { map_lookups. cbn [fmap option_fmap option_map]. unfold withPaint at 1 2.
        cbn [paint layerType source layerFilter withPaint].
        rewrite overlay_paint_fill. done. }
      by map_lookups.
    - by apply addGeoJsonLayer_camera. }
  split; [apply Hrestyle |].
  unfold geoJsonStyleEffect, geoJsonEffect.
  destruct current as [m0 |], geoJsonData as [g |], loaded; try done.
  f_equal. apply Hrestyle.
Qed.

(** X28: restyling and filtering the overlay are independent.  Restyling
    keeps camera and sources and the filter of every layer, and it commutes
    with the overlay filter: the widget is the same whichever of the two is
    applied first. *)
Theorem updateGeoJsonStyle_keeps_filter
    (m : MapState Camera) (style : MapStyle.t) (key : string) (ids : list JSValue) :
  camera (updateGeoJsonStyle m style) = camera m
  ∧ sources (updateGeoJsonStyle m style) = sources m
  ∧ (∀ id, layerFilter <$> getLayer (updateGeoJsonStyle m style) id
           = layerFilter <$> getLayer m id)
  ∧ updateGeoJsonStyle (filterGeoJsonByProperty m key ids) style
    = filterGeoJsonByProperty (updateGeoJsonStyle m style) key ids.
Proof.
  split; [| split; [| split]].
  - unfold updateGeoJsonStyle. by destruct (present (getSource m "geojson-data")).
  - unfold updateGeoJsonStyle. by destruct (present (getSource m "geojson-data")).
  - intros id. unfold updateGeoJsonStyle, getLayer.
    destruct (present (getSource m "geojson-data")); [| done].
    cbn [setPaintProperty layers].
    destruct (decide (id = "geojson-point-layer")) as [-> | ?];
      [map_lookups; by destruct (layers m !! "geojson-point-layer") |].
    destruct (decide (id = "geojson-line-layer")) as [-> | ?];
      [map_lookups; by destruct (layers m !! "geojson-line-layer") |].
    destruct (decide (id = "geojson-fill-layer")) as [-> | ?];
      [map_lookups; by destruct (layers m !! "geojson-fill-layer") |].
    by map_lookups.
  - rewrite !filterGeoJsonByProperty_closed. unfold updateGeoJsonStyle.
    destruct (present (getSource m "geojson-data")) eqn:Hsrc; [| by rewrite Hsrc].
    unfold getSource in *. cbn [setFilter setPaintProperty sources]. rewrite Hsrc.
    apply MapState_eq; cbn [setFilter setPaintProperty sources layers camera];
      [done | | done].
    apply map_eq. intros lid.
    destruct (decide (lid = "geojson-point-layer")) as [-> | ?];
      [map_lookups; by destruct (layers m !! "geojson-point-layer") |].
    destruct (decide (lid = "geojson-line-layer")) as [-> | ?];
      [map_lookups; by destruct (layers m !! "geojson-line-layer") |].
    destruct (decide (lid = "geojson-fill-layer")) as [-> | ?];
      [map_lookups; by destruct (layers m !! "geojson-fill-layer") |].
    by map_lookups.
Qed.

(** X29: when the overlay load leaves the camera alone.  If no feature has
    a usable position (no geometry, no coordinates, or a Point with fewer than
    two components), or if some MultiPolygon has a polygon without rings (the
    scan then throws inside the guarded block, whatever the other features
    hold), the overlay is still installed and the camera stays where it
    was. *)
Theorem addGeoJsonLayer_keeps_camera
    (m : MapState Camera) (geojson : OverlayCollection) (style : MapStyle.t) :
  (∀ feature, feature ∈ overlayFeatures geojson → withoutPosition feature)
  ∨ (∃ feature, feature ∈ overlayFeatures geojson ∧ hasEmptyPolygon feature) →
  camera (addGeoJsonLayer cameraFitting m geojson style) = camera m
  ∧ getSource (addGeoJsonLayer cameraFitting m geojson style) "geojson-data"
    = Some (asFeatureCollection geojson).
Proof.
  intros Hcase. split;
    [| unfold getSource; by rewrite addGeoJsonLayer_sources, lookup_insert_eq].
  rewrite addGeoJsonLayer_closed. unfold fitToOverlay.
  destruct Hcase as [Hnone | [feature [Hin [polygons [Hgeom Hempty]]]]].
  - assert (Hscan : scanBounds geojson = Ok {| bounds := []; hasValidFeatures := false |}).
    { unfold scanBounds. apply foldlThrowing_fixed. intros f Hf.
      specialize (Hnone f Hf). unfold withoutPosition in Hnone. unfold scanFeature.
      destruct (overlayGeometry f) as [[c | c | c | c | c | c | t] |]; try done;
        destruct c as [c |]; try done.
      unfold extendWith. by rewrite (proj2 (Nat.leb_gt 2 (length c)) Hnone). }
    by rewrite Hscan.
  - assert (Hthrow : ∃ e, scanBounds geojson = Throw e).
    { unfold scanBounds. apply (foldlThrowing_throws scanFeature feature); [done |].
      intros s. unfold scanFeature. rewrite Hgeom.
      apply (foldlThrowing_throws _ []); [done |]. intros s'. by eexists. }
    destruct Hthrow as [e ->]. done.
Qed.

End OverlayComposition.

Lemma addGeoJsonLayer_keeps_camera_witness :
  camera (addGeoJsonLayer (λ _ _, (0, 0, 0)%float) filteredWidget ringlessOverlay overlayStyle)
  = camera filteredWidget
  ∧ getSource (addGeoJsonLayer (λ _ _, (0, 0, 0)%float) filteredWidget ringlessOverlay overlayStyle)
      "geojson-data"
    = Some (asFeatureCollection ringlessOverlay).
Proof.
  apply (addGeoJsonLayer_keeps_camera (float * float * float) (λ _ _, (0, 0, 0)%float)
           filteredWidget
           ringlessOverlay overlayStyle).
  right. exists ringlessMultiPolygon. split.
  - unfold ringlessOverlay. cbn [overlayFeatures]. right. left.
  - eexists. split; [reflexivity |]. right. left.
Defined.
